(** * F1-MCP bridge: dispatch, fallback and metrics

    A shallow embedding of [f1-messenger-app/mcp-bridge.py]: the class
    [F1MCPBridge] (counters, JWT helpers, tool dispatch with the 2024
    Ergast fallback, health metrics) and the [/mcp/tool] endpoint.

    Conventions.
    - JSON-like Python values are the inductive [json]; a Python [dict]
      inside a value is an association list in insertion order, the
      bridge's own [errors_by_tool] and a request's [arguments] are finite
      maps.
    - A method of the bridge is a computation in the monad [M]: it threads
      the bridge object, appends to a trace of observable calls and either
      returns or raises.  Only exceptions derived from Python's [Exception]
      are modelled; [print] is not.
    - The data functions of [f1_mcp_server.f1_data], the HTTP upstream and
      the PyJWT library are not part of the bridge: they are parameters.
    - A Python [float] computed by the bridge is an IEEE 754 binary64
      value, rounded to nearest, ties to even. *)

From Stdlib Require Import ZArith QArith Qabs Lqa String List.
From stdpp Require Import base option strings pretty gmap list.

Local Open Scope Z_scope.

(** ** Python values *)

#[local] Set Warnings "-register-all".

Inductive json : Type :=
| JNull
| JBool (b : bool)
| JInt (n : Z)
| JFloat (m e : Z)          (* the finite binary float m * 2^e *)
| JStr (s : string)
| JList (l : list json)
| JDict (d : list (string * json)).

(** Exceptions: any [Exception] subclass with its [str(e)], and FastAPI's
    [HTTPException(status_code, detail)]. *)
Inductive exn : Type :=
| PyException (cls : string) (msg : string)
| HTTPException (status_code : Z) (detail : string).

(** [str(e)]; an [HTTPException] prints as its status code, a colon and
    its detail. *)
Definition str_exn (e : exn) : string :=
  match e with
  | PyException _ msg => msg
  | HTTPException status_code detail => pretty status_code +:+ ": " +:+ detail
  end.

Abbreviation result := (sum exn).

(** [bool(v)] *)
Definition py_truthy (v : json) : bool :=
  match v with
  | JNull => false
  | JBool b => b
  | JInt n => negb (n =? 0)
  | JFloat m _ => negb (m =? 0)
  | JStr s => negb (String.eqb s "")
  | JList l => match l with [] => false | _ => true end
  | JDict d => match d with [] => false | _ => true end
  end.

(** [v == n] for an [int] literal [n]: numbers compare by value ([True] and
    [False] count as 1 and 0), everything else is unequal. *)
Definition py_eq_int (v : json) (n : Z) : bool :=
  match v with
  | JInt k => k =? n
  | JBool b => (if b then 1 else 0) =? n
  | JFloat m e => if 0 <=? e then m * 2 ^ e =? n else m =? n * 2 ^ (- e)
  | _ => false
  end.

Definition type_name (v : json) : string :=
  match v with
  | JNull => "NoneType"
  | JBool _ => "bool"
  | JInt _ => "int"
  | JFloat _ _ => "float"
  | JStr _ => "str"
  | JList _ => "list"
  | JDict _ => "dict"
  end.

Fixpoint assoc (k : string) (d : list (string * json)) : option json :=
  match d with
  | [] => None
  | (k', v) :: d' => if String.eqb k k' then Some v else assoc k d'
  end.

Definition KeyError (k : string) : exn :=
  PyException "KeyError" ("'" +:+ k +:+ "'").
Definition IndexError (what : string) : exn :=
  PyException "IndexError" (what +:+ " index out of range").
Definition TypeError (msg : string) : exn := PyException "TypeError" msg.

Definition chars (s : string) : list json :=
  map (fun c => JStr (String c EmptyString)) (list_ascii_of_string s).

(** Sequence index with Python's negative indices. *)
Definition py_index {A} (l : list A) (i : Z) : option A :=
  let n := Z.of_nat (length l) in
  let j := if i <? 0 then n + i else i in
  if (0 <=? j) && (j <? n) then nth_error l (Z.to_nat j) else None.

(** [v[k]] for a string key. *)
Definition getitem (v : json) (k : string) : result json :=
  match v with
  | JDict d => match assoc k d with Some x => inr x | None => inl (KeyError k) end
  | JList _ => inl (TypeError "list indices must be integers or slices, not str")
  | JStr _ => inl (TypeError "string indices must be integers, not 'str'")
  | _ => inl (TypeError ("'" +:+ type_name v +:+ "' object is not subscriptable"))
  end.

(** [v[i]] for an integer index. *)
Definition getindex (v : json) (i : Z) : result json :=
  match v with
  | JList l => match py_index l i with Some x => inr x | None => inl (IndexError "list") end
  | JStr s => match py_index (chars s) i with Some x => inr x | None => inl (IndexError "string") end
  | JDict _ => inl (PyException "KeyError" "0")
  | _ => inl (TypeError ("'" +:+ type_name v +:+ "' object is not subscriptable"))
  end.

(** [v[:n]] *)
Definition slice_to (n : nat) (v : json) : result json :=
  match v with
  | JList l => inr (JList (firstn n l))
  | JStr s => inr (JStr (String.substring 0 (Nat.min n (String.length s)) s))
  | JDict _ => inl (PyException "KeyError" "slice(None, 10, None)")
  | _ => inl (TypeError ("'" +:+ type_name v +:+ "' object is not subscriptable"))
  end.

(** The items a [for] loop over [v] visits. *)
Definition py_iter (v : json) : result (list json) :=
  match v with
  | JList l => inr l
  | JStr s => inr (chars s)
  | JDict d => inr (map (fun kv => JStr (fst kv)) d)
  | _ => inl (TypeError ("'" +:+ type_name v +:+ "' object is not iterable"))
  end.

(** ** Python floats

    A binary64 value: a signed zero, [m * 2^e] with a sign, an infinity or
    not-a-number.  Finite results of the operations below have
    [0 < m < 2^53] and [-1074 ≤ e ≤ 971]. *)

Inductive float : Type :=
| FZero (neg : bool)
| FFinite (neg : bool) (m e : Z)
| FInf (neg : bool)
| FNaN.

(** [N / D] rounded to the nearest integer, ties to the even one. *)
Definition round_half_even (N D : Z) : Z :=
  let q := N / D in
  match 2 * (N mod D) ?= D with
  | Lt => q
  | Gt => q + 1
  | Eq => if Z.even q then q else q + 1
  end.

(** The [k] with [2^k ≤ n / d < 2^(k+1)], for positive [n] and [d]. *)
Definition ilog2 (n d : Z) : Z :=
  let k := Z.log2 n - Z.log2 d in
  if (if 0 <=? k then d * 2 ^ k <=? n else d <=? n * 2 ^ (- k)) then k else k - 1.

(** The binary64 nearest to [± n / d] ([0 ≤ n], [0 < d]): 53 significant
    bits, exponents clamped at the subnormal range, overflow to infinity. *)
Definition round_binary64 (neg : bool) (n d : Z) : float :=
  if n <=? 0 then FZero neg else
  let e := Z.max (ilog2 n d - 52) (-1074) in
  let m := if 0 <=? e then round_half_even n (d * 2 ^ e)
           else round_half_even (n * 2 ^ (- e)) d in
  if m =? 0 then FZero neg
  else if m =? 2 ^ 53 then
    if 971 <? e + 1 then FInf neg else FFinite neg (2 ^ 52) (e + 1)
  else if 971 <? e then FInf neg else FFinite neg m e.

(** [x * y] on floats. *)
Definition float_mul (x y : float) : float :=
  match x, y with
  | FNaN, _ | _, FNaN => FNaN
  | FInf _, FZero _ | FZero _, FInf _ => FNaN
  | FInf s1, FInf s2 | FInf s1, FFinite s2 _ _ | FFinite s1 _ _, FInf s2 =>
      FInf (xorb s1 s2)
  | FZero s1, FZero s2 | FZero s1, FFinite s2 _ _ | FFinite s1 _ _, FZero s2 =>
      FZero (xorb s1 s2)
  | FFinite s1 m1 e1, FFinite s2 m2 e2 =>
      let e := e1 + e2 in
      if 0 <=? e then round_binary64 (xorb s1 s2) (m1 * m2 * 2 ^ e) 1
      else round_binary64 (xorb s1 s2) (m1 * m2) (2 ^ (- e))
  end.

(** The float of an [int]; too large an [int] raises. *)
Definition float_of_int (n : Z) : result float :=
  match round_binary64 (n <? 0) (Z.abs n) 1 with
  | FInf _ =>
      inl (PyException "OverflowError" "int too large to convert to float")
  | x => inr x
  end.

(** [a / b] on [int]s: the correctly rounded quotient; a zero divisor and a
    quotient beyond the float range raise. *)
Definition truediv (a b : Z) : result float :=
  if b =? 0 then inl (PyException "ZeroDivisionError" "division by zero")
  else
    match round_binary64 (xorb (a <? 0) (b <? 0)) (Z.abs a) (Z.abs b) with
    | FInf _ =>
        inl (PyException "OverflowError"
               "integer division result too large for a float")
    | q => inr q
    end.

(** The float nearest to a rational: what a float operation returns whose
    exact result is [x]. *)
Definition float_of_Q (x : Q) : float :=
  round_binary64 (Qnum x <? 0) (Z.abs (Qnum x)) (Z.pos (Qden x)).

(** The rational a finite float stands for (0 for the others). *)
Definition float_value (x : float) : Q :=
  match x with
  | FFinite neg m e =>
      let v := if 0 <=? e then inject_Z (m * 2 ^ e)
               else m # Z.to_pos (2 ^ (- e)) in
      if neg then (- v)%Q else v
  | _ => 0%Q
  end.

Definition is_finite (x : float) : bool :=
  match x with
  | FZero _ | FFinite _ _ _ => true
  | _ => false
  end.

(** 100.0 *)
Definition hundred : float := FFinite false (100 * 2 ^ 46) (-46).

(** A non-negative float with a negative exponent and value at most [B]. *)
Definition small_float (B : Z) (x : float) : Prop :=
  x = FZero false ∨
  ∃ m e, x = FFinite false m e ∧ e < 0 ∧ 0 < m ≤ B * 2 ^ (- e).

(** ** The bridge object and its collaborators *)

Record F1MCPBridge : Type := {
  request_id : Z;
  tool_calls : Z;
  successful_calls : Z;
  errors_by_tool : gmap string Z;
  start_time : Q;
  jwt_secret : string
}.

(** [F1MCPBridge.__init__], [now] being [time.time()]. *)
Definition init (now : Q) : F1MCPBridge :=
  {| request_id := 1; tool_calls := 0; successful_calls := 0;
     errors_by_tool := ∅; start_time := now;
     jwt_secret := "cursor-f1-mcp-secret-key" |}.

(** A data function, called with the request's arguments as keywords. *)
Abbreviation capability := (gmap string json → result json).

(** The names imported from [f1_mcp_server.f1_data]. *)
Record f1_data : Type := {
  get_championship_standings : capability;
  get_event_schedule : capability;
  get_event_info : capability;
  get_session_results : capability;
  get_driver_info : capability;
  analyze_driver_performance : capability;
  compare_drivers : capability;
  get_telemetry : capability
}.

(** What [requests.get(url)] can do: raise, or give a response with a
    status code whose [.json()] parses or raises. *)
Inductive http_result : Type :=
| ConnectionFailed (e : exn)
| Response (status_code : Z) (body : result json).

Record world : Type := {
  f1 : f1_data;
  upstream : string → http_result
}.

(** Observable calls, in program order.  [Requests_get url timeout] records
    the [timeout] keyword of the request ([None] when it is not passed). *)
Inductive event : Type :=
| Call_mcp_tool (tool_name : string) (arguments : gmap string json)
| Ergast_fallback (tool_name : string) (arguments : gmap string json)
| Requests_get (url : string) (timeout : option Z).

(** ** The monad of bridge methods *)

Definition M (A : Type) : Type :=
  F1MCPBridge → F1MCPBridge * list event * result A.

Definition ret {A} (a : A) : M A := fun s => (s, [], inr a).
Definition raise {A} (e : exn) : M A := fun s => (s, [], inl e).
Definition bind {A B} (m : M A) (f : A → M B) : M B :=
  fun s =>
    match m s with
    | (s1, t1, inr a) => match f a s1 with (s2, t2, r) => (s2, t1 ++ t2, r) end
    | (s1, t1, inl e) => (s1, t1, inl e)
    end.
(** [try: m  except Exception as e: h e]; what [m] did before it raised
    stays done. *)
Definition try_except {A} (m : M A) (h : exn → M A) : M A :=
  fun s =>
    match m s with
    | (s1, t1, inl e) => match h e s1 with (s2, t2, r) => (s2, t1 ++ t2, r) end
    | ok => ok
    end.
Definition lift {A} (r : result A) : M A := fun s => (s, [], r).
Definition tell (ev : event) : M unit := fun s => (s, [ev], inr tt).
Definition get : M F1MCPBridge := fun s => (s, [], inr s).
Definition modify (f : F1MCPBridge → F1MCPBridge) : M unit :=
  fun s => (f s, [], inr tt).

Notation "x <- m ;; k" := (bind m (fun x => k))
  (at level 100, m at next level, right associativity, only parsing).
Notation "m ;;; k" := (bind m (fun _ => k))
  (at level 100, right associativity, only parsing).

Fixpoint mapM {A B} (f : A → M B) (l : list A) : M (list B) :=
  match l with
  | [] => ret []
  | x :: l' => y <- f x ;; ys <- mapM f l' ;; ret (y :: ys)
  end.

(** ** Methods of [F1MCPBridge] *)

Record response : Type := {
  status_code : Z;
  response_json : result json     (* what [response.json()] does *)
}.

Record ToolRequest : Type := {
  name : string;
  arguments : gmap string json
}.

Record HealthResponse : Type := {
  status : string;
  uptime : float;
  health_tool_calls : Z;
  success_rate : float;
  errors : gmap string Z
}.

(** [arguments.get('year') == 2024] *)
Definition year_is_2024 (arguments : gmap string json) : bool :=
  match arguments !! "year" with
  | Some v => py_eq_int v 2024
  | None => false
  end.

Definition incr_tool_calls (self : F1MCPBridge) : F1MCPBridge :=
  {| request_id := request_id self;
     tool_calls := tool_calls self + 1;
     successful_calls := successful_calls self;
     errors_by_tool := errors_by_tool self;
     start_time := start_time self;
     jwt_secret := jwt_secret self |}.

Definition incr_successful_calls (self : F1MCPBridge) : F1MCPBridge :=
  {| request_id := request_id self;
     tool_calls := tool_calls self;
     successful_calls := successful_calls self + 1;
     errors_by_tool := errors_by_tool self;
     start_time := start_time self;
     jwt_secret := jwt_secret self |}.

(** [self.errors_by_tool[tool_name] = self.errors_by_tool.get(tool_name, 0) + 1] *)
Definition incr_errors (tool_name : string) (self : F1MCPBridge) : F1MCPBridge :=
  {| request_id := request_id self;
     tool_calls := tool_calls self;
     successful_calls := successful_calls self;
     errors_by_tool :=
       <[tool_name := default 0 (errors_by_tool self !! tool_name) + 1]>
         (errors_by_tool self);
     start_time := start_time self;
     jwt_secret := jwt_secret self |}.

Section Bridge.

Variable w : world.

Definition tool_functions : gmap string capability :=
  list_to_map
    [("get_championship_standings", get_championship_standings (f1 w));
     ("get_event_schedule", get_event_schedule (f1 w));
     ("get_event_info", get_event_info (f1 w));
     ("get_session_results", get_session_results (f1 w));
     ("get_driver_info", get_driver_info (f1 w));
     ("analyze_driver_performance", analyze_driver_performance (f1 w));
     ("compare_drivers", compare_drivers (f1 w));
     ("get_telemetry", get_telemetry (f1 w))].

Definition call_mcp_tool (tool_name : string) (arguments : gmap string json)
  : M json :=
  tell (Call_mcp_tool tool_name arguments) ;;;
  match tool_functions !! tool_name with
  | None => raise (PyException "Exception" ("Unknown tool: " +:+ tool_name))
  | Some func =>
      result <- lift (func arguments) ;;
      ret result
  end.

Definition requests_get (url : string) (timeout : option Z) : M response :=
  tell (Requests_get url timeout) ;;;
  match upstream w url with
  | ConnectionFailed e => raise e
  | Response c b => ret {| status_code := c; response_json := b |}
  end.

Definition standing_entry (driver : json) : M json :=
  d <- lift (getitem driver "Driver") ;;
  code <- lift (getitem d "code") ;;
  d <- lift (getitem driver "Driver") ;;
  given <- lift (getitem d "givenName") ;;
  d <- lift (getitem driver "Driver") ;;
  family <- lift (getitem d "familyName") ;;
  points <- lift (getitem driver "points") ;;
  position <- lift (getitem driver "position") ;;
  ret (JDict [("driverCode", code); ("givenName", given);
              ("familyName", family); ("points", points);
              ("position", position)]).

Definition race_entry (race : json) : M json :=
  race_name <- lift (getitem race "raceName") ;;
  date <- lift (getitem race "date") ;;
  c <- lift (getitem race "Circuit") ;;
  circuit <- lift (getitem c "circuitName") ;;
  round <- lift (getitem race "round") ;;
  ret (JDict [("EventName", race_name); ("EventDate", date);
              ("CircuitName", circuit); ("RoundNumber", round)]).

Definition ergast_standings : M (option json) :=
  response <- requests_get "http://ergast.com/api/f1/2024/driverStandings.json" None ;;
  if status_code response =? 200 then
    data <- lift (response_json response) ;;
    x <- lift (getitem data "MRData") ;;
    x <- lift (getitem x "StandingsTable") ;;
    x <- lift (getitem x "StandingsLists") ;;
    x <- lift (getindex x 0) ;;
    drivers <- lift (getitem x "DriverStandings") ;;
    top <- lift (slice_to 10 drivers) ;;
    items <- lift (py_iter top) ;;
    entries <- mapM standing_entry items ;;
    ret (Some (JDict [("status", JStr "success");
                      ("data", JDict [("drivers", JList entries)])]))
  else ret None.

Definition ergast_schedule : M (option json) :=
  response <- requests_get "http://ergast.com/api/f1/2024.json" None ;;
  if status_code response =? 200 then
    data <- lift (response_json response) ;;
    x <- lift (getitem data "MRData") ;;
    x <- lift (getitem x "RaceTable") ;;
    races <- lift (getitem x "Races") ;;
    items <- lift (py_iter races) ;;
    entries <- mapM race_entry items ;;
    ret (Some (JDict [("status", JStr "success"); ("data", JList entries)]))
  else ret None.

(** The [try] block of [ergast_fallback]. *)
Definition ergast_request (tool_name : string) : M (option json) :=
  if String.eqb tool_name "get_championship_standings" then ergast_standings
  else if String.eqb tool_name "get_event_schedule" then ergast_schedule
  else ret None.

Definition ergast_fallback (tool_name : string) (arguments : gmap string json)
  : M (option json) :=
  tell (Ergast_fallback tool_name arguments) ;;;
  try_except (ergast_request tool_name) (fun e => ret None).

Definition call_tool_with_fallback (tool_name : string)
    (arguments : gmap string json) : M json :=
  modify incr_tool_calls ;;;
  try_except
    (result <- call_mcp_tool tool_name arguments ;;
     modify incr_successful_calls ;;;
     ret result)
    (fun e =>
       modify (incr_errors tool_name) ;;;
       if year_is_2024 arguments then
         fallback_result <- ergast_fallback tool_name arguments ;;
         match fallback_result with
         | Some v => if py_truthy v then ret v else raise e
         | None => raise e
         end
       else raise e).

(** [now] is [time.time()]; it and [start_time] hold the exact values of
    the two clock readings, and their difference is rounded.  The [int]s
    100 and 0 become floats where a float meets them: in the product, and
    in the float field of [HealthResponse]. *)
Definition get_health_metrics (now : Q) : M HealthResponse :=
  self <- get ;;
  let uptime := float_of_Q (now - start_time self) in
  success_rate <-
    (if 0 <? tool_calls self then
       q <- lift (truediv (successful_calls self) (tool_calls self)) ;;
       c <- lift (float_of_int 100) ;;
       ret (float_mul q c)
     else lift (float_of_int 0)) ;;
  ret {| status := "healthy"; uptime := uptime;
         health_tool_calls := tool_calls self;
         success_rate := success_rate;
         errors := errors_by_tool self |}.

(** The [POST /mcp/tool] endpoint. *)
Definition call_tool (request : ToolRequest) : M json :=
  try_except
    (result <- call_tool_with_fallback (name request) (arguments request) ;;
     ret (JDict [("status", JStr "success"); ("data", result)]))
    (fun e => raise (HTTPException 500 (str_exn e))).

End Bridge.

(** ** JWT helpers

    PyJWT is a library, not part of the bridge: [encode] and [decode] are
    taken as an interface, with the behaviour of PyJWT 2 as its contract.
    A [datetime] is a count of microseconds since the epoch; the library
    stores [exp] as a NumericDate, in whole seconds, and compares it with
    the clock at decoding.  [decode] raises only subclasses of
    [jwt.InvalidTokenError]. *)

Module jwt.

Inductive InvalidTokenError : Type :=
| DecodeError
| InvalidSignatureError
| ExpiredSignatureError
| ImmatureSignatureError
| InvalidAlgorithmError.

(** The payload [{"user_id": ..., "exp": ...}] handed to [encode]. *)
Record payload : Type := {
  user_id : string;
  exp : Z
}.

Definition numeric_date (dt : Z) : Z := dt / 1000000.

(** The claims [decode] gives back for a payload. *)
Definition claims (p : payload) : json :=
  JDict [("user_id", JStr (user_id p)); ("exp", JInt (numeric_date (exp p)))].

Record library : Type := {
  token : Type;
  encode : payload → string → string → token;
  decode : token → string → list string → Z → InvalidTokenError + json
}.

(** What the bridge relies on.
    - A token decodes, under the key and algorithm it was encoded with, to
      its claims while the clock is before the stored expiry, and is
      refused as expired from that instant on.
    - Signatures are taken as unforgeable: whatever decodes under a key was
      made by [encode] under that key with an allowed algorithm, and tokens
      made under different keys differ. *)
Record contract (J : library) : Prop := {
  decode_encode : ∀ p key alg now,
    decode J (encode J p key alg) key [alg] now =
      if numeric_date (exp p) * 1000000 <=? now
      then inl ExpiredSignatureError else inr (claims p);
  decode_genuine : ∀ tok key algorithms now c,
    decode J tok key algorithms now = inr c →
    ∃ p alg, tok = encode J p key alg ∧ alg ∈ algorithms ∧ c = claims p;
  encode_key : ∀ p key alg p' key' alg',
    encode J p key alg = encode J p' key' alg' → key = key'
}.

End jwt.

(** [timedelta(hours=h)], in microseconds. *)
Definition timedelta_hours (h : Z) : Z := h * 3600 * 1000000.

Section Auth.

Variable J : jwt.library.

(** [utcnow] is [datetime.utcnow()]. *)
Definition generate_jwt_payload (user_id : string) (utcnow : Z) : jwt.payload :=
  {| jwt.user_id := user_id; jwt.exp := utcnow + timedelta_hours 1 |}.

Definition generate_jwt (self : F1MCPBridge) (user_id : string) (utcnow : Z)
  : jwt.token J :=
  jwt.encode J (generate_jwt_payload user_id utcnow) (jwt_secret self) "HS256".

(** [now] is the clock [jwt.decode] reads. *)
Definition verify_jwt (self : F1MCPBridge) (token : jwt.token J) (now : Z)
  : result json :=
  match jwt.decode J token (jwt_secret self) ["HS256"] now with
  | inr c => inr c
  | inl _ => inl (HTTPException 401 "Invalid token")
  end.

End Auth.

(** A reference implementation of the interface: a signed token carries
    its claims, the key and the algorithm; anything else is text that does
    not parse as a token. *)
Inductive reference_token : Type :=
| Signed (user_id : string) (exp : Z) (key alg : string)
| Garbled (text : string).

Definition reference_decode (tok : reference_token)
    (key : string) (algorithms : list string) (now : Z)
  : jwt.InvalidTokenError + json :=
  match tok with
  | Garbled _ => inl jwt.DecodeError
  | Signed user_id exp k alg =>
      if negb (existsb (String.eqb alg) algorithms) then inl jwt.InvalidAlgorithmError
      else if negb (String.eqb k key) then inl jwt.InvalidSignatureError
      else if exp * 1000000 <=? now
           then inl jwt.ExpiredSignatureError
           else inr (JDict [("user_id", JStr user_id); ("exp", JInt exp)])
  end.

Definition reference_jwt : jwt.library :=
  {| jwt.token := reference_token;
     jwt.encode := fun p key alg =>
       Signed (jwt.user_id p) (jwt.numeric_date (jwt.exp p)) key alg;
     jwt.decode := reference_decode |}.

(** ** Reading a run *)

Definition is_fallback_call (ev : event) : bool :=
  match ev with Ergast_fallback _ _ => true | _ => false end.
Definition is_network_call (ev : event) : bool :=
  match ev with Requests_get _ _ => true | _ => false end.

(** How often a run entered [ergast_fallback], and how many requests it sent. *)
Definition fallback_calls (t : list event) : nat :=
  length (List.filter is_fallback_call t).
Definition network_calls (t : list event) : nat :=
  length (List.filter is_network_call t).

(** A request sent without a [timeout]. *)
Definition no_timeout (ev : event) : Prop :=
  match ev with
  | Requests_get _ timeout => timeout = None
  | _ => True
  end.

(** A request that states how long it is willing to wait. *)
Definition bounded_wait (ev : event) : Prop :=
  match ev with
  | Requests_get _ timeout => ∃ seconds, timeout = Some seconds
  | _ => True
  end.

(** What [call_mcp_tool] comes to: the registry lookup, then the capability. *)
Definition primary_outcome (w : world) (tool_name : string)
    (arguments : gmap string json) : result json :=
  match tool_functions w !! tool_name with
  | None => inl (PyException "Exception" ("Unknown tool: " +:+ tool_name))
  | Some func => func arguments
  end.

(** The requests [ergast_fallback] sends for a tool name. *)
Definition fallback_requests (tool_name : string) : list event :=
  if String.eqb tool_name "get_championship_standings" then
    [Requests_get "http://ergast.com/api/f1/2024/driverStandings.json" None]
  else if String.eqb tool_name "get_event_schedule" then
    [Requests_get "http://ergast.com/api/f1/2024.json" None]
  else [].

(** What [ergast_fallback] returns (it does not read the bridge). *)
Definition fallback_payload (w : world) (tool_name : string)
    (arguments : gmap string json) : option json :=
  match ergast_fallback w tool_name arguments (init 0) with
  | (_, _, inr r) => r
  | (_, _, inl _) => None
  end.

(** What one loop iteration over a standings item returns. *)
Definition entry_of (driver : json) : result json :=
  match standing_entry driver (init 0) with (_, _, r) => r end.

(** [stateless m t]: [m] leaves the bridge as it found it, emits exactly
    [t] and has an outcome that does not depend on the bridge. *)
Definition stateless {A} (m : M A) (t : list event) : Prop :=
  ∃ r, ∀ s, m s = (s, t, r).

(** Bridges reachable from a fresh one by dispatches. *)
Inductive reachable (w : world) : F1MCPBridge → Prop :=
| reachable_init now : reachable w (init now)
| reachable_dispatch s tool_name arguments s' t r :
    reachable w s →
    call_tool_with_fallback w tool_name arguments s = (s', t, r) →
    reachable w s'.

(** ** Upstream shapes *)

Definition has_key (k : string) (v : json) : bool :=
  match v with
  | JDict d => match assoc k d with Some _ => true | None => false end
  | _ => false
  end.

(** One element of [DriverStandings] with the fields the fallback reads. *)
Definition valid_standing (driver : json) : bool :=
  has_key "points" driver && has_key "position" driver &&
  match getitem driver "Driver" with
  | inr d => has_key "code" d && has_key "givenName" d && has_key "familyName" d
  | inl _ => false
  end.

(** [data['MRData']['StandingsTable']['StandingsLists'][0]['DriverStandings']]
    when every step is there and the last is a list. *)
Definition standings_of (data : json) : option (list json) :=
  match getitem data "MRData" with
  | inr x =>
    match getitem x "StandingsTable" with
    | inr x =>
      match getitem x "StandingsLists" with
      | inr x =>
        match getindex x 0 with
        | inr x =>
          match getitem x "DriverStandings" with
          | inr (JList l) => Some l
          | _ => None
          end
        | _ => None
        end
      | _ => None
      end
    | _ => None
    end
  | _ => None
  end.

Definition valid_standings (data : json) : bool :=
  match standings_of data with
  | Some l => forallb valid_standing l
  | None => false
  end.

(** The keys of a dictionary, in insertion order. *)
Definition entry_keys (v : json) : option (list string) :=
  match v with
  | JDict d => Some (map fst d)
  | _ => None
  end.

(** The keys of a re-projected standings entry, in the order written. *)
Definition standing_keys : list string :=
  ["driverCode"; "givenName"; "familyName"; "points"; "position"].

(** ** Scenarios *)

Definition failing : capability :=
  fun _ => inl (PyException "RuntimeError" "data source unavailable").

Definition f1_down : f1_data :=
  {| get_championship_standings := failing; get_event_schedule := failing;
     get_event_info := failing; get_session_results := failing;
     get_driver_info := failing; analyze_driver_performance := failing;
     compare_drivers := failing; get_telemetry := failing |}.

Definition standing (position : string) (points : string)
    (code given family : string) : json :=
  JDict [("position", JStr position); ("positionText", JStr position);
         ("points", JStr points); ("wins", JStr "0");
         ("Driver", JDict [("driverId", JStr family); ("code", JStr code);
                           ("givenName", JStr given);
                           ("familyName", JStr family)])].

Definition standings_body (l : list json) : json :=
  JDict [("MRData",
    JDict [("series", JStr "f1");
           ("StandingsTable",
             JDict [("season", JStr "2024");
                    ("StandingsLists",
                      JList [JDict [("season", JStr "2024");
                                    ("DriverStandings", JList l)]])])])].

Definition three_drivers : list json :=
  [standing "1" "437" "VER" "Max" "Verstappen";
   standing "2" "374" "NOR" "Lando" "Norris";
   standing "3" "356" "LEC" "Charles" "Leclerc"].

(** The primary is down and the upstream answers 200 with [l] standings. *)
Definition outage (l : list json) : world :=
  {| f1 := f1_down;
     upstream := fun _ => Response 200 (inr (standings_body l)) |}.

(** The primary is down and the upstream cannot be reached. *)
Definition blackout : world :=
  {| f1 := f1_down;
     upstream := fun _ =>
       ConnectionFailed (PyException "ConnectionError" "connection refused") |}.

Definition year_2024 : gmap string json := {[ "year" := JInt 2024 ]}.
Definition year_2023 : gmap string json := {[ "year" := JInt 2023 ]}.

(** ** The remaining endpoints *)

(** [GET /health] *)
Definition health_check (now : Q) : M HealthResponse := get_health_metrics now.

(** [GET /auth/token]: the one-entry dictionary [{"token": token}]. *)
Definition get_auth_token (J : jwt.library) (self : F1MCPBridge) (utcnow : Z)
  : list (string * jwt.token J) :=
  [("token", generate_jwt J self "f1-user" utcnow)].

(** *** The [/mcp/stream] endpoint

    One pass of the loop reads the clock and sends a frame; what the peer
    and the network make of that send is the environment's: a [tick] holds
    the clock reading and, when the send raises, the exception.  The
    handler is run against a finite prefix of ticks; [Ws_open] says it is
    still looping when the prefix ends. *)

Record tick : Type := {
  clock : Z;                 (* [datetime.utcnow()] *)
  send_text : option exn      (* [None]: the send went through *)
}.

Inductive ws_event : Type :=
| Ws_accept
| Ws_send_text (frame : json)       (* the text is [json.dumps frame] *)
| Ws_sleep (seconds : Z).

Inductive ws_status : Type :=
| Ws_open
| Ws_closed
| Ws_failed (e : exn).

Definition is_WebSocketDisconnect (e : exn) : bool :=
  match e with
  | PyException cls _ => String.eqb cls "WebSocketDisconnect"
  | HTTPException _ _ => false
  end.

Section Stream.

(** [datetime.isoformat] *)
Variable isoformat : Z → string.

Definition heartbeat (now : Z) : json :=
  JDict [("type", JStr "heartbeat"); ("timestamp", JStr (isoformat now))].

(** The [while True] loop: the frames sent and sleeps taken, and the
    exception that ended it, if one did. *)
Fixpoint heartbeat_loop (env : list tick) : list ws_event * option exn :=
  match env with
  | [] => ([], None)
  | tk :: env' =>
      match send_text tk with
      | Some e => ([], Some e)
      | None =>
          match heartbeat_loop env' with
          | (t, r) => (Ws_send_text (heartbeat (clock tk)) :: Ws_sleep 30 :: t, r)
          end
      end
  end.

(** [accept] is what [websocket.accept()] does; it is outside the [try]. *)
Definition websocket_endpoint (accept : option exn) (env : list tick)
  : list ws_event * ws_status :=
  match accept with
  | Some e => ([], Ws_failed e)
  | None =>
      match heartbeat_loop env with
      | (t, None) => (Ws_accept :: t, Ws_open)
      | (t, Some e) =>
          if is_WebSocketDisconnect e then (Ws_accept :: t, Ws_closed)
          else (Ws_accept :: t, Ws_failed e)
      end
  end.

(** What a run over ticks whose sends all succeed emits. *)
Definition beats (env : list tick) : list ws_event :=
  flat_map (fun tk => [Ws_send_text (heartbeat (clock tk)); Ws_sleep 30]) env.

End Stream.

Definition delivered (tk : tick) : bool :=
  match send_text tk with None => true | Some _ => false end.

(** ** Reading a run, continued *)

(** A loop body run over a list: the results in order, or the first
    exception. *)
Fixpoint traverse {A B} (g : A → result B) (l : list A) : result (list B) :=
  match l with
  | [] => inr []
  | x :: l' =>
      match g x with
      | inl e => inl e
      | inr y =>
          match traverse g l' with
          | inl e => inl e
          | inr ys => inr (y :: ys)
          end
      end
  end.

(** What one loop iteration over a schedule item returns. *)
Definition race_of (race : json) : result json :=
  match race_entry race (init 0) with (_, _, r) => r end.

(** [entry] is [driver] re-projected: the five values, under the new keys. *)
Definition standing_projection (driver entry : json) : Prop :=
  ∃ d code given family points position,
    getitem driver "Driver" = inr d ∧
    getitem d "code" = inr code ∧
    getitem d "givenName" = inr given ∧
    getitem d "familyName" = inr family ∧
    getitem driver "points" = inr points ∧
    getitem driver "position" = inr position ∧
    entry = JDict [("driverCode", code); ("givenName", given);
                   ("familyName", family); ("points", points);
                   ("position", position)].

Definition race_projection (race entry : json) : Prop :=
  ∃ c race_name date circuit round,
    getitem race "raceName" = inr race_name ∧
    getitem race "date" = inr date ∧
    getitem race "Circuit" = inr c ∧
    getitem c "circuitName" = inr circuit ∧
    getitem race "round" = inr round ∧
    entry = JDict [("EventName", race_name); ("EventDate", date);
                   ("CircuitName", circuit); ("RoundNumber", round)].

(** One element of [Races] with the fields the fallback reads. *)
Definition valid_race (race : json) : bool :=
  has_key "raceName" race && has_key "date" race && has_key "round" race &&
  match getitem race "Circuit" with
  | inr c => has_key "circuitName" c
  | inl _ => false
  end.

(** [data['MRData']['RaceTable']['Races']] when every step is there and the
    last is a list. *)
Definition races_of (data : json) : option (list json) :=
  match getitem data "MRData" with
  | inr x =>
    match getitem x "RaceTable" with
    | inr x =>
      match getitem x "Races" with
      | inr (JList l) => Some l
      | _ => None
      end
    | _ => None
    end
  | _ => None
  end.

(** The sum of all per-tool error counts. *)
Definition total_errors (errors : gmap string Z) : Z :=
  map_fold (fun _ n acc => n + acc) 0 errors.

(** Requests served one after the other by [POST /mcp/tool]. *)
Definition run_requests (w : world) (requests : list ToolRequest)
    (s : F1MCPBridge) : F1MCPBridge :=
  foldl (fun s request => (call_tool w request s).1.1) s requests.

Definition primary_ok (w : world) (request : ToolRequest) : bool :=
  match primary_outcome w (name request) (arguments request) with
  | inr _ => true
  | inl _ => false
  end.

Definition primary_successes (w : world) (requests : list ToolRequest) : nat :=
  length (List.filter (primary_ok w) requests).

Definition primary_failures (w : world) (tool_name : string)
    (requests : list ToolRequest) : nat :=
  length (List.filter
            (fun request =>
               negb (primary_ok w request) && String.eqb (name request) tool_name)
            requests).

(** ** More scenarios *)

Definition race (round name date circuit : string) : json :=
  JDict [("season", JStr "2024"); ("round", JStr round);
         ("raceName", JStr name);
         ("Circuit", JDict [("circuitId", JStr circuit);
                            ("circuitName", JStr circuit)]);
         ("date", JStr date)].

Definition schedule_body (l : list json) : json :=
  JDict [("MRData",
    JDict [("series", JStr "f1");
           ("RaceTable", JDict [("season", JStr "2024"); ("Races", JList l)])])].

Definition twelve_races : list json :=
  replicate 12 (race "1" "Bahrain Grand Prix" "2024-03-02" "Bahrain International Circuit").

(** Only the standings capability works; the upstream answers the schedule. *)
Definition standings_only (v : json) (l : list json) : world :=
  {| f1 := {| get_championship_standings := fun _ => inr v;
              get_event_schedule := failing;
              get_event_info := failing; get_session_results := failing;
              get_driver_info := failing; analyze_driver_performance := failing;
              compare_drivers := failing; get_telemetry := failing |};
     upstream := fun _ => Response 200 (inr (schedule_body l)) |}.

Definition request_for (tool_name : string) (year : Z) : ToolRequest :=
  {| name := tool_name; arguments := {[ "year" := JInt year ]} |}.

(** The event-info capability answers with an HTTP error of its own. *)
Definition no_such_season : world :=
  {| f1 := {| get_championship_standings := failing;
              get_event_schedule := failing;
              get_event_info := fun _ =>
                inl (HTTPException 404 "no such season");
              get_session_results := failing;
              get_driver_info := failing; analyze_driver_performance := failing;
              compare_drivers := failing; get_telemetry := failing |};
     upstream := fun _ => Response 503 (inl (PyException "JSONDecodeError" "")) |}.

(** Three requests of which the first alone is answered by the primary. *)
Definition one_in_three : list ToolRequest :=
  [request_for "get_championship_standings" 2023;
   request_for "get_event_schedule" 2023;
   request_for "get_event_info" 2023].

(** The upstream answers the schedule with something that is no list. *)
Definition odd_schedule (races : json) : world :=
  {| f1 := f1_down;
     upstream := fun _ =>
       Response 200
         (inr (JDict [("MRData",
                 JDict [("RaceTable", JDict [("Races", races)])])])) |}.

Definition ok_tick (now : Z) : tick := {| clock := now; send_text := None |}.
Definition failing_tick (now : Z) (e : exn) : tick :=
  {| clock := now; send_text := Some e |}.

(** * Properties *)

(** ** Computations that do not touch the bridge *)

Lemma stateless_ret {A} (a : A) : stateless (ret a) [].
Proof. by exists (inr a). Qed.

Lemma stateless_raise {A} (e : exn) : stateless (@raise A e) [].
Proof. by exists (inl e). Qed.

Lemma stateless_lift {A} (r : result A) : stateless (lift r) [].
Proof. by exists r. Qed.

Lemma stateless_bind {A B} (m : M A) (f : A → M B) t :
  stateless m t → (∀ a, stateless (f a) []) → stateless (bind m f) t.
Proof.
  intros [[e|a] Hm] Hf.
  - exists (inl e). intros s. unfold bind. by rewrite Hm.
  - destruct (Hf a) as [r Hr]. exists r. intros s. unfold bind.
    by rewrite Hm, Hr, app_nil_r.
Qed.

Lemma stateless_try_except {A} (m : M A) (h : exn → M A) t :
  stateless m t → (∀ e, stateless (h e) []) → stateless (try_except m h) t.
Proof.
  intros [[e|a] Hm] Hh.
  - destruct (Hh e) as [r Hr]. exists r. intros s. unfold try_except.
    by rewrite Hm, Hr, app_nil_r.
  - exists (inr a). intros s. unfold try_except. by rewrite Hm.
Qed.

Lemma stateless_mapM {A B} (f : A → M B) (l : list A) :
  (∀ x, stateless (f x) []) → stateless (mapM f l) [].
Proof.
  intros Hf. induction l as [|x l IH]; simpl.
  - apply stateless_ret.
  - apply stateless_bind; [apply Hf|]. intros y.
    apply stateless_bind; [apply IH|]. intros ys. apply stateless_ret.
Qed.

Create HintDb stateless.
#[local] Hint Resolve stateless_ret stateless_raise stateless_lift
  stateless_mapM : stateless.

Ltac stateless_steps :=
  repeat first
    [ apply stateless_bind; [solve [auto with stateless]|]; intros ?
    | solve [auto with stateless] ].

Lemma stateless_standing_entry driver : stateless (standing_entry driver) [].
Proof. unfold standing_entry. stateless_steps. Qed.

Lemma stateless_race_entry race : stateless (race_entry race) [].
Proof. unfold race_entry. stateless_steps. Qed.

#[local] Hint Resolve stateless_standing_entry stateless_race_entry : stateless.

Lemma stateless_requests_get w url timeout :
  stateless (requests_get w url timeout) [Requests_get url timeout].
Proof.
  unfold requests_get, bind, tell.
  destruct (upstream w url) as [e|c b].
  - by exists (inl e).
  - by exists (inr {| status_code := c; response_json := b |}).
Qed.

Lemma stateless_ergast_standings w :
  stateless (ergast_standings w)
    [Requests_get "http://ergast.com/api/f1/2024/driverStandings.json" None].
Proof.
  unfold ergast_standings.
  apply stateless_bind; [apply stateless_requests_get|]. intros response.
  destruct (status_code response =? 200); stateless_steps.
Qed.

Lemma stateless_ergast_schedule w :
  stateless (ergast_schedule w)
    [Requests_get "http://ergast.com/api/f1/2024.json" None].
Proof.
  unfold ergast_schedule.
  apply stateless_bind; [apply stateless_requests_get|]. intros response.
  destruct (status_code response =? 200); stateless_steps.
Qed.

Lemma stateless_ergast_request w tool_name :
  stateless (ergast_request w tool_name) (fallback_requests tool_name).
Proof.
  unfold ergast_request, fallback_requests.
  destruct (String.eqb tool_name "get_championship_standings").
  - apply stateless_ergast_standings.
  - destruct (String.eqb tool_name "get_event_schedule").
    + apply stateless_ergast_schedule.
    + apply stateless_ret.
Qed.

(** ** Run equations *)

Lemma standing_entry_run driver s :
  standing_entry driver s = (s, [], entry_of driver).
Proof.
  destruct (stateless_standing_entry driver) as [r Hr].
  unfold entry_of. by rewrite !Hr.
Qed.

Lemma call_mcp_tool_run w tool_name arguments s :
  call_mcp_tool w tool_name arguments s =
  (s, [Call_mcp_tool tool_name arguments], primary_outcome w tool_name arguments).
Proof.
  unfold call_mcp_tool, primary_outcome, bind, tell.
  destruct (tool_functions w !! tool_name) as [func|]; [|done].
  unfold lift, ret. by destruct (func arguments).
Qed.

(** [ergast_fallback] never raises and leaves the bridge alone. *)
Lemma ergast_fallback_run w tool_name arguments s :
  ergast_fallback w tool_name arguments s =
  (s, Ergast_fallback tool_name arguments :: fallback_requests tool_name,
   inr (fallback_payload w tool_name arguments)).
Proof.
  assert (∃ r, ∀ s, ergast_fallback w tool_name arguments s =
    (s, Ergast_fallback tool_name arguments :: fallback_requests tool_name, inr r))
    as [r Hr].
  { destruct (stateless_ergast_request w tool_name) as [[e|v] Hb].
    - exists None. intros s'. unfold ergast_fallback, bind, tell, try_except.
      by rewrite Hb; simpl; rewrite app_nil_r.
    - exists v. intros s'. unfold ergast_fallback, bind, tell, try_except.
      by rewrite Hb. }
  unfold fallback_payload. by rewrite !Hr.
Qed.

(** The try block decides the payload: a value it returns is passed on, an
    exception it raises becomes [None]. *)
Lemma fallback_payload_request w tool_name arguments s :
  ∃ r, ergast_request w tool_name s = (s, fallback_requests tool_name, r) ∧
       fallback_payload w tool_name arguments =
         match r with inr v => v | inl _ => None end.
Proof.
  destruct (stateless_ergast_request w tool_name) as [r Hb].
  exists r. split; [apply Hb|].
  unfold fallback_payload, ergast_fallback, bind, tell, try_except.
  rewrite Hb. by destruct r.
Qed.

(** The whole of [call_tool_with_fallback], path by path. *)
Lemma call_tool_with_fallback_run w tool_name arguments s :
  call_tool_with_fallback w tool_name arguments s =
  match primary_outcome w tool_name arguments with
  | inr v =>
      (incr_successful_calls (incr_tool_calls s),
       [Call_mcp_tool tool_name arguments], inr v)
  | inl e =>
      let s' := incr_errors tool_name (incr_tool_calls s) in
      if year_is_2024 arguments then
        (s',
         Call_mcp_tool tool_name arguments
           :: Ergast_fallback tool_name arguments :: fallback_requests tool_name,
         match fallback_payload w tool_name arguments with
         | Some v => if py_truthy v then inr v else inl e
         | None => inl e
         end)
      else (s', [Call_mcp_tool tool_name arguments], inl e)
  end.
Proof.
  unfold call_tool_with_fallback, bind, modify, try_except.
  rewrite call_mcp_tool_run.
  destruct (primary_outcome w tool_name arguments) as [e|v]; [|done].
  simpl. destruct (year_is_2024 arguments); [|done].
  rewrite ergast_fallback_run.
  destruct (fallback_payload w tool_name arguments) as [v|];
    [destruct (py_truthy v)|];
    unfold raise, ret; simpl; by rewrite app_nil_r.
Qed.

(** ** What the fallback returns *)

Lemma bind_inr {A B} (m : M A) (f : A → M B) s s' t b :
  bind m f s = (s', t, inr b) →
  ∃ a s1 t1 t2, m s = (s1, t1, inr a) ∧ f a s1 = (s', t2, inr b) ∧ t = t1 ++ t2.
Proof.
  unfold bind. destruct (m s) as [[s1 t1] [e|a]]; [done|].
  destruct (f a s1) as [[s2 t2] r] eqn:Hf. intros [= -> <- ->].
  by exists a, s1, t1, t2.
Qed.

Ltac bind_inv H :=
  repeat (apply bind_inr in H as (? & ? & ? & ? & _ & H & _)).

(** Every payload of the fallback is a [status]/[data] dictionary. *)
Lemma ergast_request_envelope w tool_name s s' t v :
  ergast_request w tool_name s = (s', t, inr (Some v)) →
  ∃ d, v = JDict [("status", JStr "success"); ("data", d)].
Proof.
  unfold ergast_request. intros H.
  destruct (String.eqb tool_name "get_championship_standings").
  - unfold ergast_standings in H.
    apply bind_inr in H as (response & ? & ? & ? & _ & H & _).
    destruct (status_code response =? 200); [|done].
    bind_inv H. injection H as _ _ <-. eauto.
  - destruct (String.eqb tool_name "get_event_schedule"); [|done].
    unfold ergast_schedule in H.
    apply bind_inr in H as (response & ? & ? & ? & _ & H & _).
    destruct (status_code response =? 200); [|done].
    bind_inv H. injection H as _ _ <-. eauto.
Qed.

Lemma fallback_payload_envelope w tool_name arguments v :
  fallback_payload w tool_name arguments = Some v →
  ∃ d, v = JDict [("status", JStr "success"); ("data", d)].
Proof.
  destruct (fallback_payload_request w tool_name arguments (init 0))
    as ([e|r] & Hreq & ->); [done|].
  intros ->. eapply ergast_request_envelope, Hreq.
Qed.

Lemma fallback_payload_truthy w tool_name arguments v :
  fallback_payload w tool_name arguments = Some v → py_truthy v = true.
Proof. intros (d & ->)%fallback_payload_envelope. done. Qed.

(** Names outside the two supported ones are not handled. *)
Lemma fallback_payload_unsupported w tool_name arguments :
  tool_name ≠ "get_championship_standings" →
  tool_name ≠ "get_event_schedule" →
  fallback_payload w tool_name arguments = None ∧ fallback_requests tool_name = [].
Proof.
  intros H1%String.eqb_neq H2%String.eqb_neq.
  destruct (fallback_payload_request w tool_name arguments (init 0))
    as (r & Hreq & ->).
  unfold fallback_requests. unfold ergast_request in Hreq.
  rewrite H1, H2 in *. injection Hreq as ? ?. by subst r.
Qed.

(** Registered names resolve; in particular both supported names do. *)
Lemma tool_functions_supported w tool_name :
  tool_functions w !! tool_name = None →
  tool_name ≠ "get_championship_standings" ∧ tool_name ≠ "get_event_schedule".
Proof. intros H. split; intros ->; vm_compute in H; discriminate. Qed.

(** ** Standings *)

Lemma has_key_getitem k v :
  has_key k v = true → ∃ x, getitem v k = inr x.
Proof.
  destruct v; try done. simpl. destruct (assoc k d); [eauto|done].
Qed.

Lemma entry_of_valid driver :
  valid_standing driver = true →
  ∃ code given family points position,
    entry_of driver =
      inr (JDict [("driverCode", code); ("givenName", given);
                  ("familyName", family); ("points", points);
                  ("position", position)]).
Proof.
  unfold valid_standing. intros H.
  apply andb_true_iff in H as [[Hpts Hpos]%andb_true_iff H].
  destruct (getitem driver "Driver") as [|d] eqn:Hd; [done|].
  apply andb_true_iff in H as [[Hc Hg]%andb_true_iff Hf].
  apply has_key_getitem in Hpts as [points Hpts], Hpos as [position Hpos],
    Hc as [code Hc], Hg as [given Hg], Hf as [family Hf].
  exists code, given, family, points, position.
  unfold entry_of, standing_entry, bind, lift, ret.
  by rewrite Hd, Hc, Hg, Hf, Hpts, Hpos.
Qed.

Lemma mapM_standing_entry_valid l s :
  Forall (fun d => valid_standing d = true) l →
  ∃ entries, mapM standing_entry l s = (s, [], inr entries) ∧
    length entries = length l ∧
    Forall (fun d => entry_keys d = Some standing_keys) entries.
Proof.
  induction 1 as [|d l Hd _ (entries & IH & Hlen & Hkeys)].
  - by exists [].
  - apply entry_of_valid in Hd as (c & g & f & p & q & Hd).
    eexists (_ :: entries). simpl. unfold bind at 1.
    rewrite standing_entry_run, Hd. unfold bind at 1. rewrite IH.
    split; [done|]. split; [simpl; by rewrite Hlen|].
    constructor; [done|apply Hkeys].
Qed.

Lemma standings_of_inv data l :
  standings_of data = Some l →
  ∃ x1 x2 x3 x4,
    getitem data "MRData" = inr x1 ∧ getitem x1 "StandingsTable" = inr x2 ∧
    getitem x2 "StandingsLists" = inr x3 ∧ getindex x3 0 = inr x4 ∧
    getitem x4 "DriverStandings" = inr (JList l).
Proof.
  unfold standings_of. intros H.
  repeat case_match; try done. simplify_eq. eauto 10.
Qed.

(** A well-formed upstream answer yields the first ten standings,
    re-projected. *)
Lemma fallback_payload_standings w arguments data l :
  upstream w "http://ergast.com/api/f1/2024/driverStandings.json"
    = Response 200 (inr data) →
  standings_of data = Some l →
  forallb valid_standing l = true →
  ∃ entries,
    fallback_payload w "get_championship_standings" arguments =
      Some (JDict [("status", JStr "success");
                   ("data", JDict [("drivers", JList entries)])]) ∧
    length entries = Nat.min 10 (length l) ∧
    Forall (fun d => entry_keys d = Some standing_keys) entries.
Proof.
  intros Hup (x1 & x2 & x3 & x4 & H1 & H2 & H3 & H4 & H5)%standings_of_inv Hall.
  assert (Forall (fun d => valid_standing d = true) (firstn 10 l)) as Hten.
  { apply Forall_take, Forall_forall. intros d Hd.
    eapply forallb_forall in Hall; [done|]. by apply list_elem_of_In. }
  destruct (mapM_standing_entry_valid _ (init 0) Hten)
    as (entries & Hrun & Hlen & Hkeys).
  exists entries. split; [|split; [by rewrite Hlen, length_firstn|done]].
  destruct (fallback_payload_request w "get_championship_standings" arguments
              (init 0)) as (r & Hreq & ->).
  unfold ergast_request in Hreq. simpl in Hreq.
  unfold ergast_standings, requests_get, bind, tell, lift, ret in Hreq.
  rewrite Hup in Hreq. simpl in Hreq.
  rewrite H1, H2, H3, H4, H5 in Hreq. simpl in Hreq.
  rewrite Hrun in Hreq. by injection Hreq as <-.
Qed.

(** ** The endpoint and the traces *)

Lemma call_tool_run w request s :
  call_tool w request s =
  match call_tool_with_fallback w (name request) (arguments request) s with
  | (s', t, inr v) => (s', t, inr (JDict [("status", JStr "success"); ("data", v)]))
  | (s', t, inl e) => (s', t, inl (HTTPException 500 (str_exn e)))
  end.
Proof.
  unfold call_tool, try_except, bind.
  destruct (call_tool_with_fallback _ _ _ s) as [[s' t] [e|v]];
    unfold ret, raise; simpl; by rewrite app_nil_r.
Qed.

Lemma fallback_requests_calls tool_name :
  fallback_calls (fallback_requests tool_name) = 0%nat ∧
  (network_calls (fallback_requests tool_name) ≤ 1)%nat ∧
  Forall no_timeout (fallback_requests tool_name).
Proof.
  unfold fallback_requests.
  repeat case_match; repeat split; simpl; repeat constructor.
Qed.

Lemma year_is_2024_int (arguments : gmap string json) (year : Z) :
  arguments !! "year" = Some (JInt year) →
  year_is_2024 arguments = true ↔ year = 2024.
Proof. unfold year_is_2024. intros ->. simpl. lia. Qed.

Lemma year_is_2024_missing (arguments : gmap string json) :
  arguments !! "year" = None → year_is_2024 arguments = false.
Proof. unfold year_is_2024. by intros ->. Qed.

(** A primary failure rescued by the fallback: the payload is returned and
    only [tool_calls] and the tool's error count move. *)
Lemma fallback_rescue_run w tool_name arguments s e v :
  primary_outcome w tool_name arguments = inl e →
  year_is_2024 arguments = true →
  fallback_payload w tool_name arguments = Some v →
  call_tool_with_fallback w tool_name arguments s =
    (incr_errors tool_name (incr_tool_calls s),
     Call_mcp_tool tool_name arguments
       :: Ergast_fallback tool_name arguments :: fallback_requests tool_name,
     inr v).
Proof.
  intros Hp Hy Hv. rewrite call_tool_with_fallback_run, Hp. simpl.
  by rewrite Hy, Hv, (fallback_payload_truthy _ _ _ _ Hv).
Qed.

(** A primary success: counted once, no error recorded, nothing else called. *)
Lemma primary_success_run w tool_name arguments s v :
  primary_outcome w tool_name arguments = inr v →
  call_tool_with_fallback w tool_name arguments s =
    (incr_successful_calls (incr_tool_calls s),
     [Call_mcp_tool tool_name arguments], inr v).
Proof. intros Hp. by rewrite call_tool_with_fallback_run, Hp. Qed.

(** Python compares numbers by value: the float 2024.0 (253 * 2^3) is a
    fallback year too, the string "2024" is not. *)
Example year_is_2024_float :
  year_is_2024 {[ "year" := JFloat 253 3 ]} = true ∧
  year_is_2024 {[ "year" := JStr "2024" ]} = false ∧
  year_is_2024 ∅ = false.
Proof. by vm_compute. Qed.

(** The upstream is unreachable: the fallback swallows the transport error
    and the dispatch fails with the primary's exception. *)
Example blackout_run :
  ergast_fallback blackout "get_event_schedule" year_2024 (init 0) =
    (init 0,
     [Ergast_fallback "get_event_schedule" year_2024;
      Requests_get "http://ergast.com/api/f1/2024.json" None],
     inr None) ∧
  ∃ s' t,
    call_tool blackout
      {| name := "get_event_schedule"; arguments := year_2024 |} (init 0) =
      (s', t, inl (HTTPException 500 "data source unavailable")).
Proof. split; [by vm_compute|]. eexists _, _. by vm_compute. Qed.

(** ** Dispatch *)

(** C1, evaluated on the code: the primary raises, the arguments carry
    year 2024 and the fallback returns a payload.  The dispatch returns
    Success with that payload and keeps the error recorded for the primary
    failure, but [successful_calls] stays where it was: the fallback return
    leaves the method before any increment. *)
Theorem fallback_rescue_not_counted :
  ∃ s' t payload,
    call_tool_with_fallback (outage three_drivers)
      "get_championship_standings" year_2024 (init 0) = (s', t, inr payload) ∧
    fallback_payload (outage three_drivers)
      "get_championship_standings" year_2024 = Some payload ∧
    tool_calls s' = 1 ∧
    errors_by_tool s' !! "get_championship_standings" = Some 1 ∧
    successful_calls s' = successful_calls (init 0).
Proof.
  eexists _, _, _. split; [vm_compute; reflexivity|].
  repeat split; vm_compute; reflexivity.
Qed.

(** C2, as the code has it: a name outside the registry makes the dispatch
    fail with the message "Unknown tool: <name>", counts the call and one
    error under that name, does not count a success and sends no request;
    [ergast_fallback] is entered exactly when the year is 2024 and then
    handles nothing. *)
Theorem unknown_tool_dispatch w tool_name arguments s :
  tool_functions w !! tool_name = None →
  ∃ s' t,
    call_tool_with_fallback w tool_name arguments s =
      (s', t, inl (PyException "Exception" ("Unknown tool: " +:+ tool_name))) ∧
    tool_calls s' = tool_calls s + 1 ∧
    errors_by_tool s' !! tool_name =
      Some (default 0 (errors_by_tool s !! tool_name) + 1) ∧
    successful_calls s' = successful_calls s ∧
    network_calls t = 0%nat ∧
    fallback_payload w tool_name arguments = None ∧
    fallback_calls t = (if year_is_2024 arguments then 1 else 0)%nat.
Proof.
  intros Hnone.
  destruct (tool_functions_supported _ _ Hnone) as [H1 H2].
  destruct (fallback_payload_unsupported w tool_name arguments H1 H2)
    as [Hpay Hreq].
  pose proof (call_tool_with_fallback_run w tool_name arguments s) as Hrun.
  unfold primary_outcome in Hrun. rewrite Hnone, Hpay, Hreq in Hrun.
  simpl in Hrun.
  destruct (year_is_2024 arguments); eexists _, _; (split; [exact Hrun|]);
    simpl; by rewrite lookup_insert_eq.
Qed.

Lemma unknown_tool_dispatch_witness :
  tool_functions blackout !! "get_weather" = None ∧
  ∃ s' t,
    call_tool_with_fallback blackout "get_weather" year_2023 (init 0) =
      (s', t, inl (PyException "Exception" "Unknown tool: get_weather")) ∧
    tool_calls s' = 1 ∧ successful_calls s' = 0.
Proof.
  split; [reflexivity|].
  destruct (unknown_tool_dispatch blackout "get_weather" year_2023 (init 0))
    as (s' & t & Hrun & Hcalls & _ & Hsucc & _); [reflexivity|].
  exists s', t. repeat split; assumption.
Defined.

(** C2, as stated, fails: for an unregistered name with year 2024 the
    dispatch does enter the fallback provider. *)
Lemma unknown_tool_enters_fallback :
  tool_functions blackout !! "get_weather" = None ∧
  ∃ s' t r,
    call_tool_with_fallback blackout "get_weather" year_2024 (init 0) = (s', t, r) ∧
    In (Ergast_fallback "get_weather" year_2024) t ∧
    fallback_calls t = 1%nat.
Proof.
  split; [reflexivity|]. eexists _, _, _.
  split; [vm_compute; reflexivity|]. split; [right; left; reflexivity|reflexivity].
Qed.

(** C3: when the primary raises, [ergast_fallback] is entered if and only
    if the arguments hold a [year] that equals 2024 (for an integer year:
    exactly when it is 2024), and at most once; for any other year, or with
    no year, the dispatch fails with the primary's exception and sends no
    request; when the fallback handles nothing the primary's exception is
    the failure, and the endpoint reports its message. *)
Theorem fallback_only_for_2024 w tool_name arguments s e :
  primary_outcome w tool_name arguments = inl e →
  ∃ s' t r,
    call_tool_with_fallback w tool_name arguments s = (s', t, r) ∧
    (fallback_calls t = 1%nat ↔
       ∃ v, arguments !! "year" = Some v ∧ py_eq_int v 2024 = true) ∧
    (∀ year, arguments !! "year" = Some (JInt year) →
       (fallback_calls t = 1%nat ↔ year = 2024)) ∧
    (fallback_calls t ≤ 1)%nat ∧
    (network_calls t ≤ 1)%nat ∧
    (arguments !! "year" = None ∨
     (∃ year, arguments !! "year" = Some (JInt year) ∧ year ≠ 2024) ∨
     (∃ v, arguments !! "year" = Some v ∧ py_eq_int v 2024 = false) →
       r = inl e ∧ fallback_calls t = 0%nat ∧ network_calls t = 0%nat) ∧
    (fallback_payload w tool_name arguments = None →
       r = inl e ∧
       call_tool w {| name := tool_name; arguments := arguments |} s =
         (s', t, inl (HTTPException 500 (str_exn e)))).
Proof.
  intros Hp.
  pose proof (call_tool_with_fallback_run w tool_name arguments s) as Hrun.
  pose proof (call_tool_run w {| name := tool_name; arguments := arguments |} s)
    as Hend.
  simpl in Hend. rewrite Hrun in Hend. rewrite Hp in Hrun, Hend.
  simpl in Hrun, Hend.
  destruct (fallback_requests_calls tool_name) as (Hf & Hn & _).
  unfold fallback_calls, network_calls in *.
  unfold year_is_2024 in Hrun, Hend.
  destruct (arguments !! "year") as [v|] eqn:Hyear;
    [destruct (py_eq_int v 2024) eqn:Hv|];
    eexists _, _, _; (split; [exact Hrun|]); simpl; rewrite ?Hf.
  - split_and!; try lia.
    + split; [eauto|done].
    + intros year [= ->]. simpl in Hv. lia.
    + intros [?|[(year & [= ->] & Hne)|(v' & [= <-] & Hv')]];
        [done|simpl in Hv; lia|congruence].
    + intros Hnone. rewrite Hnone in Hend. by rewrite Hnone.
  - split_and!; try done; try lia.
    + split; [done|]. intros (v' & [= <-] & Hv'). congruence.
    + intros year [= ->]. simpl in Hv. split; [done|lia].
  - split_and!; try done; try lia.
    split; [done|]. by intros (v' & ? & _).
Qed.

Lemma fallback_only_for_2024_witness :
  primary_outcome blackout "get_event_schedule" year_2024
    = inl (PyException "RuntimeError" "data source unavailable") ∧
  year_2024 !! "year" = Some (JInt 2024) ∧
  ∃ s' t,
    call_tool_with_fallback blackout "get_event_schedule" year_2024 (init 0)
      = (s', t, inl (PyException "RuntimeError" "data source unavailable")) ∧
    fallback_calls t = 1%nat.
Proof.
  split; [reflexivity|]. split; [reflexivity|].
  destruct (fallback_only_for_2024 blackout "get_event_schedule" year_2024
              (init 0) (PyException "RuntimeError" "data source unavailable"))
    as (s' & t & r & Hrun & _ & Hint & _ & _ & _ & Hnone); [reflexivity|].
  destruct Hnone as [-> _]; [reflexivity|].
  exists s', t. split; [exact Hrun|].
  apply (Hint 2024); reflexivity.
Defined.

(** The same dispatch with year 2023 stays away from the fallback. *)
Example fallback_not_for_2023 :
  ∃ s',
    call_tool_with_fallback blackout "get_event_schedule" year_2023 (init 0)
      = (s', [Call_mcp_tool "get_event_schedule" year_2023],
         inl (PyException "RuntimeError" "data source unavailable")).
Proof. eexists. by vm_compute. Qed.

(** C4, as the code has it: every request the fallback provider sends is
    sent without a timeout, and a dispatch sends at most one. *)
Theorem fallback_request_has_no_timeout w tool_name arguments s :
  ∃ s' t r,
    call_tool_with_fallback w tool_name arguments s = (s', t, r) ∧
    Forall no_timeout t ∧ (network_calls t ≤ 1)%nat.
Proof.
  pose proof (call_tool_with_fallback_run w tool_name arguments s) as Hrun.
  destruct (fallback_requests_calls tool_name) as (_ & Hn & Hno).
  unfold network_calls in *.
  destruct (primary_outcome w tool_name arguments) as [e|v]; simpl in Hrun;
    [destruct (year_is_2024 arguments)|];
    eexists _, _, _; (split; [exact Hrun|]); simpl;
    (split; [repeat constructor; assumption|lia]).
Qed.

(** C4, as stated, fails: the standings request of the fallback carries no
    bound on the wait at all. *)
Lemma fallback_request_unbounded :
  ∃ s' t r,
    ergast_fallback (outage three_drivers) "get_championship_standings"
      year_2024 (init 0) = (s', t, r) ∧
    In (Requests_get "http://ergast.com/api/f1/2024/driverStandings.json" None) t ∧
    ¬ Forall bounded_wait t.
Proof.
  eexists _, _, _. split; [vm_compute; reflexivity|].
  split; [right; left; reflexivity|].
  intros H. apply Forall_cons in H as [_ H]. apply Forall_cons in H as [[? H] _].
  discriminate H.
Qed.

(** ** Floats *)

Lemma round_half_even_nearest N D :
  0 < D → 0 ≤ N →
  0 ≤ round_half_even N D ∧ 2 * Z.abs (round_half_even N D * D - N) ≤ D.
Proof.
  intros HD HN. unfold round_half_even.
  pose proof (Z.div_mod N D ltac:(lia)) as Hdm.
  pose proof (Z.mod_pos_bound N D HD) as Hr.
  pose proof (Z.div_pos N D HN HD) as Hq.
  destruct (Z.compare_spec (2 * (N mod D)) D) as [Heq|Hlt|Hgt];
    [destruct (Z.even (N / D))|..]; split; nia.
Qed.

Lemma round_half_even_le N D Y :
  0 < D → N ≤ Y * D → round_half_even N D ≤ Y.
Proof.
  intros HD HN. unfold round_half_even.
  pose proof (Z.div_mod N D ltac:(lia)) as Hdm.
  pose proof (Z.mod_pos_bound N D HD) as Hr.
  assert (N / D ≤ Y) as Hq by (apply Z.div_le_upper_bound; lia).
  assert (N / D = Y → N mod D = 0) as Hex by nia.
  destruct (Z.compare_spec (2 * (N mod D)) D) as [Heq|Hlt|Hgt];
    [destruct (Z.even (N / D))|..]; try lia;
    destruct (decide (N / D = Y)) as [HY|HY]; try lia;
    specialize (Hex HY); lia.
Qed.

Lemma ilog2_le n d K :
  0 < n → 0 < d → 0 ≤ K → n ≤ d * 2 ^ K → ilog2 n d ≤ K.
Proof.
  intros Hn Hd HK Hle. unfold ilog2.
  assert (Z.log2 n ≤ Z.log2 d + K).
  { rewrite Z.add_comm, <- Z.log2_mul_pow2 by lia. by apply Z.log2_le_mono. }
  case_match; lia.
Qed.


(** What rounding a small positive rational gives: zero, or a mantissa on
    a grid of step [2^e] with [e ≤ K - 52], off the exact value by at most
    half a step and not above the bound [B]. *)
Lemma round_binary64_small n d K B :
  0 < n → 0 < d → 0 ≤ K ≤ 51 → 0 < B ≤ 2 ^ K → n ≤ d * B →
  (round_binary64 false n d = FZero false ∧ 2 * n * 2 ^ (52 - K) ≤ d) ∨
  (∃ m e, round_binary64 false n d = FFinite false m e ∧
     e ≤ K - 52 ∧ 0 < m ≤ B * 2 ^ (- e) ∧
     2 * Z.abs (m * d - n * 2 ^ (- e)) ≤ d).
Proof.
  intros Hn Hd HK HB Hle. unfold round_binary64.
  destruct (n <=? 0) eqn:Hn0; [apply Z.leb_le in Hn0; lia|].
  pose proof (ilog2_le n d K Hn Hd ltac:(lia) ltac:(nia)) as Hlog.
  set (e := Z.max (ilog2 n d - 52) (-1074)).
  assert (e ≤ K - 52) as He by lia.
  destruct (0 <=? e) eqn:He0; [apply Z.leb_le in He0; lia|]. clear He0.
  assert (0 < 2 ^ (- e)) as Hpow by (apply Z.pow_pos_nonneg; lia).
  destruct (round_half_even_nearest (n * 2 ^ (- e)) d Hd ltac:(nia))
    as [Hm0 Hnear].
  assert (round_half_even (n * 2 ^ (- e)) d ≤ B * 2 ^ (- e)) as Hmle
    by (apply round_half_even_le; [done|nia]).
  assert (2 ^ (K - e) = 2 ^ K * 2 ^ (- e)) as Hsplit.
  { replace (K - e) with (K + - e) by lia. apply Z.pow_add_r; lia. }
  set (m := round_half_even (n * 2 ^ (- e)) d) in *.
  destruct (m =? 0) eqn:Hz.
  - apply Z.eqb_eq in Hz. left. split; [done|].
    rewrite Hz in Hnear.
    assert (2 ^ (52 - K) ≤ 2 ^ (- e)) by (apply Z.pow_le_mono_r; lia).
    nia.
  - apply Z.eqb_neq in Hz. right.
    assert (2 ^ (- e) = 2 * 2 ^ (- (e + 1))) as Hstep.
    { replace (- e) with (1 + - (e + 1)) by lia. rewrite Z.pow_add_r by lia.
      done. }
    destruct (m =? 2 ^ 53) eqn:Hn53.
    + apply Z.eqb_eq in Hn53.
      assert (53 ≤ K - e).
      { destruct (decide (53 ≤ K - e)); [done|].
        assert (2 ^ (K - e) < 2 ^ 53) by (apply Z.pow_lt_mono_r; lia). nia. }
      destruct (971 <? e + 1) eqn:Hov; [apply Z.ltb_lt in Hov; lia|].
      exists (2 ^ 52), (e + 1). split; [done|]. split; [lia|].
      change (2 ^ 53) with (2 * 2 ^ 52) in Hn53.
      split; [split; [lia|nia]|nia].
    + destruct (971 <? e) eqn:Hov; [apply Z.ltb_lt in Hov; lia|].
      exists m, e. split; [done|]. split; [lia|]. split; [lia|done].
Qed.

Lemma small_float_value B x :
  0 < B → small_float B x →
  is_finite x = true ∧ (0 <= float_value x)%Q ∧ (float_value x <= inject_Z B)%Q.
Proof.
  intros HB [->|(m & e & -> & He & Hm)]; simpl.
  - split; [done|]. split; [done|]. unfold Qle. simpl. lia.
  - destruct (0 <=? e) eqn:He0; [apply Z.leb_le in He0; lia|].
    assert (0 < 2 ^ (- e)) by (apply Z.pow_pos_nonneg; lia).
    split; [done|]. unfold Qle. simpl. rewrite Z2Pos.id by done. lia.
Qed.

Lemma round_binary64_error n d K B :
  0 < n → 0 < d → 0 ≤ K ≤ 51 → 0 < B ≤ 2 ^ K → n ≤ d * B →
  small_float B (round_binary64 false n d) ∧
  (Qabs (float_value (round_binary64 false n d) - (n # Z.to_pos d))
     <= 1 # Z.to_pos (2 ^ (53 - K)))%Q.
Proof.
  intros Hn Hd HK HB Hle.
  assert (0 < 2 ^ (52 - K)) as Hp by (apply Z.pow_pos_nonneg; lia).
  assert (2 ^ (53 - K) = 2 * 2 ^ (52 - K)) as Hs.
  { replace (53 - K) with (1 + (52 - K)) by lia. by rewrite Z.pow_add_r by lia. }
  destruct (round_binary64_small n d K B Hn Hd HK HB Hle)
    as [[-> Hz]|(m & e & -> & He & Hm & Hnear)].
  - split; [by left|].
    unfold float_value, Qabs, Qle, Qminus, Qplus, Qopp. simpl.
    rewrite ?Pos2Z.inj_mul, !Z2Pos.id by lia. nia.
  - split; [right; exists m, e; split; [done|]; lia|].
    unfold float_value.
    destruct (0 <=? e) eqn:He0; [apply Z.leb_le in He0; lia|].
    assert (0 < 2 ^ (- e)) by (apply Z.pow_pos_nonneg; lia).
    assert (2 ^ (52 - K) ≤ 2 ^ (- e)) by (apply Z.pow_le_mono_r; lia).
    unfold Qabs, Qle, Qminus, Qplus, Qopp. simpl.
    rewrite ?Pos2Z.inj_mul, !Z2Pos.id by lia. nia.
Qed.

Lemma small_float_finite B x : small_float B x → is_finite x = true.
Proof. by intros [->|(m & e & -> & _)]. Qed.

Lemma truediv_small a b :
  0 ≤ a ≤ b → 0 < b →
  ∃ q, truediv a b = inr q ∧ small_float 1 q ∧
    (Qabs (float_value q - inject_Z a / inject_Z b) <= 1 # 2 ^ 53)%Q.
Proof.
  intros Ha Hb. unfold truediv.
  destruct (b =? 0) eqn:Hb0; [apply Z.eqb_eq in Hb0; lia|].
  destruct (a <? 0) eqn:Ha0; [apply Z.ltb_lt in Ha0; lia|].
  destruct (b <? 0) eqn:Hb1; [apply Z.ltb_lt in Hb1; lia|].
  rewrite !Z.abs_eq by lia. simpl xorb.
  assert (inject_Z a / inject_Z b == a # Z.to_pos b)%Q as Hx.
  { rewrite (Qmake_Qdiv a (Z.to_pos b)). by rewrite Z2Pos.id. }
  destruct (decide (a = 0)) as [->|Hne].
  - exists (FZero false). split; [done|]. split; [by left|].
    rewrite Hx. done.
  - destruct (round_binary64_error a b 0 1) as [Hsmall Herr]; try lia.
    destruct (round_binary64 false a b) as [neg|neg m e|neg|] eqn:Hq;
      try (by destruct Hsmall as [?|(? & ? & ? & _)]).
    + eexists. split; [done|]. split; [done|]. by rewrite Hx.
    + eexists. split; [done|]. split; [done|]. by rewrite Hx.
Qed.

Lemma float_of_int_100 : float_of_int 100 = inr hundred.
Proof. reflexivity. Qed.

Lemma float_mul_hundred q :
  small_float 1 q →
  small_float 100 (float_mul q hundred) ∧
  (Qabs (float_value (float_mul q hundred) - float_value q * 100)
     <= 1 # 2 ^ 46)%Q.
Proof.
  intros [->|(m & e & -> & He & Hm)].
  - split; [by left|]. done.
  - assert (0 < 2 ^ (- e)) as Hp by (apply Z.pow_pos_nonneg; lia).
    assert (2 ^ (- (e + -46)) = 2 ^ 46 * 2 ^ (- e)) as Hd.
    { replace (- (e + -46)) with (46 + - e) by lia. apply Z.pow_add_r; lia. }
    unfold float_mul, hundred.
    destruct (0 <=? e + -46) eqn:He0; [apply Z.leb_le in He0; lia|].
    simpl xorb.
    destruct (round_binary64_error (m * (100 * 2 ^ 46)) (2 ^ (- (e + -46))) 7 100)
      as [Hsmall Herr]; [lia|rewrite Hd; lia|lia|by vm_compute|rewrite Hd; nia|].
    split; [done|].
    assert ((m * (100 * 2 ^ 46) # Z.to_pos (2 ^ (- (e + -46))))
            == float_value (FFinite false m e) * 100)%Q as Heq.
    { unfold float_value.
      destruct (0 <=? e) eqn:He1; [apply Z.leb_le in He1; lia|].
      unfold Qeq, Qmult. simpl. rewrite Hd.
      rewrite ?Pos2Z.inj_mul, !Z2Pos.id by lia. ring. }
    rewrite <- Heq. exact Herr.
Qed.

(** [a / b * 100] for counters with [0 ≤ a ≤ b], [0 < b]: no exception, a
    finite float between 0 and 100, within 2^-45 of the exact value. *)
Lemma percentage_float a b :
  0 ≤ a ≤ b → 0 < b →
  ∃ q, truediv a b = inr q ∧
    is_finite (float_mul q hundred) = true ∧
    (0 <= float_value (float_mul q hundred))%Q ∧
    (float_value (float_mul q hundred) <= 100)%Q ∧
    (Qabs (float_value (float_mul q hundred) - inject_Z a / inject_Z b * 100)
       <= 1 # 2 ^ 45)%Q.
Proof.
  intros Ha Hb.
  destruct (truediv_small a b Ha Hb) as (q & Hq & Hsmall & Hdiv).
  destruct (float_mul_hundred q Hsmall) as [Hr Hmul].
  destruct (small_float_value 100 _ ltac:(lia) Hr) as (Hfin & Hlo & Hhi).
  exists q. split; [done|]. split; [done|]. split; [done|]. split; [done|].
  apply Qabs_Qle_condition in Hdiv, Hmul. apply Qabs_Qle_condition.
  change (1 # 2 ^ 53)%Q with (1 # 9007199254740992)%Q in Hdiv.
  change (1 # 2 ^ 46)%Q with (1 # 70368744177664)%Q in Hmul.
  change (1 # 2 ^ 45)%Q with (1 # 35184372088832)%Q.
  lra.
Qed.

(** [1 / 3 * 100], which Python prints as 33.33333333333333, and two
    exact cases. *)
Example percentages :
  truediv 1 3 = inr (FFinite false 6004799503160661 (-54)) ∧
  float_mul (FFinite false 6004799503160661 (-54)) hundred
    = FFinite false 4691249611844266 (-47) ∧
  truediv 1 2 = inr (FFinite false (2 ^ 52) (-53)) ∧
  float_mul (FFinite false (2 ^ 52) (-53)) hundred
    = FFinite false (50 * 2 ^ 47) (-47) ∧
  truediv 7 7 = inr (FFinite false (2 ^ 52) (-52)) ∧
  float_mul (FFinite false (2 ^ 52) (-52)) hundred = hundred.
Proof. by vm_compute. Qed.

(** Division rounds to the nearest float, ties to even, through the
    subnormal range, and raises where the quotient leaves the float range. *)
Example truediv_edges :
  truediv 1 (2 ^ 1074) = inr (FFinite false 1 (-1074)) ∧
  truediv 1 (2 ^ 1075) = inr (FZero false) ∧
  truediv 3 (2 ^ 1075) = inr (FFinite false 2 (-1074)) ∧
  truediv 0 (-5) = inr (FZero true) ∧
  truediv (2 ^ 1024 - 2 ^ 970 - 1) 1 = inr (FFinite false (2 ^ 53 - 1) 971) ∧
  truediv (2 ^ 1024 - 2 ^ 970) 1 =
    inl (PyException "OverflowError"
           "integer division result too large for a float") ∧
  truediv 1 0 = inl (PyException "ZeroDivisionError" "division by zero").
Proof. by vm_compute. Qed.

(** ** Metrics *)

Lemma truediv_raises a b e :
  truediv a b = inl e →
  (b = 0 ∧ e = PyException "ZeroDivisionError" "division by zero") ∨
  (b ≠ 0 ∧ e = PyException "OverflowError"
                 "integer division result too large for a float").
Proof.
  unfold truediv. destruct (b =? 0) eqn:Hb.
  - apply Z.eqb_eq in Hb. intros [= <-]. by left.
  - apply Z.eqb_neq in Hb.
    destruct (round_binary64 _ _ _); intros [= <-]. by right.
Qed.

Lemma get_health_metrics_run now s :
  get_health_metrics now s =
  (s, [],
   if 0 <? tool_calls s then
     match truediv (successful_calls s) (tool_calls s) with
     | inr q =>
         inr {| status := "healthy";
                uptime := float_of_Q (now - start_time s);
                health_tool_calls := tool_calls s;
                success_rate := float_mul q hundred;
                errors := errors_by_tool s |}
     | inl e => inl e
     end
   else
     inr {| status := "healthy";
            uptime := float_of_Q (now - start_time s);
            health_tool_calls := tool_calls s;
            success_rate := FZero false;
            errors := errors_by_tool s |}).
Proof.
  unfold get_health_metrics, bind, get, lift, ret. simpl.
  destruct (0 <? tool_calls s); [|done].
  by destruct (truediv (successful_calls s) (tool_calls s)).
Qed.

(** C5, as the code has it: [get_health_metrics] never raises a
    [ZeroDivisionError].  With [tool_calls] at zero (or below) the rate is
    exactly 0 and nothing is divided.  With [0 ≤ successful_calls ≤
    tool_calls] and [tool_calls] positive it returns, and the rate is the
    float Python computes for [successful_calls / tool_calls * 100]: the
    quotient rounded to the nearest float, times 100.0, rounded again; that
    float is finite and within 2^-45 of the exact value.  The one exception
    it can raise is the [OverflowError] of the division, and only outside
    [0 ≤ successful_calls ≤ tool_calls]. *)
Theorem success_rate_defined now s :
  (∀ s' t e, get_health_metrics now s = (s', t, inl e) →
     e = PyException "OverflowError"
           "integer division result too large for a float" ∧
     0 < tool_calls s ∧
     ¬ (0 ≤ successful_calls s ≤ tool_calls s)) ∧
  (tool_calls s ≤ 0 →
     ∃ h, get_health_metrics now s = (s, [], inr h) ∧
          success_rate h = FZero false) ∧
  (0 < tool_calls s → 0 ≤ successful_calls s ≤ tool_calls s →
     ∃ h q,
       get_health_metrics now s = (s, [], inr h) ∧
       truediv (successful_calls s) (tool_calls s) = inr q ∧
       success_rate h = float_mul q hundred ∧
       is_finite (success_rate h) = true ∧
       (Qabs (float_value (success_rate h)
              - inject_Z (successful_calls s) / inject_Z (tool_calls s) * 100)
          <= 1 # 2 ^ 45)%Q).
Proof.
  rewrite get_health_metrics_run. split_and!.
  - intros s' t e.
    destruct (0 <? tool_calls s) eqn:Hpos; [|done].
    apply Z.ltb_lt in Hpos.
    destruct (truediv (successful_calls s) (tool_calls s)) as [e'|q] eqn:Hq;
      [|done].
    intros [= _ _ ->].
    destruct (truediv_raises _ _ _ Hq) as [[? _]|[_ ->]]; [lia|].
    split; [done|]. split; [done|]. intros Hinv.
    destruct (percentage_float _ _ Hinv Hpos) as (q & Hq' & _). congruence.
  - intros Hz. destruct (0 <? tool_calls s) eqn:Hpos;
      [apply Z.ltb_lt in Hpos; lia|]. eauto.
  - intros Hpos Hinv.
    destruct (percentage_float _ _ Hinv Hpos) as (q & Hq & Hfin & _ & _ & Herr).
    apply Z.ltb_lt in Hpos. rewrite Hpos, Hq. eauto 10.
Qed.

(** C5, as stated, fails: with one success in three calls the reported
    rate is the float 4691249611844266 * 2^-47 (33.33333333333333), not
    one third times 100. *)
Lemma success_rate_is_rounded :
  ∃ h,
    get_health_metrics 9 (run_requests (standings_only JNull []) one_in_three (init 0))
      = (run_requests (standings_only JNull []) one_in_three (init 0), [], inr h) ∧
    tool_calls (run_requests (standings_only JNull []) one_in_three (init 0)) = 3 ∧
    successful_calls (run_requests (standings_only JNull []) one_in_three (init 0)) = 1 ∧
    success_rate h = FFinite false 4691249611844266 (-47) ∧
    ¬ (float_value (success_rate h) == inject_Z 1 / inject_Z 3 * 100)%Q.
Proof.
  eexists. split; [by vm_compute|]. split; [by vm_compute|].
  split; [by vm_compute|]. split; [reflexivity|]. by vm_compute.
Qed.

(** How one dispatch moves the two counters, whatever the bridge. *)
Lemma dispatch_counter_steps w tool_name arguments s :
  ∃ s' t r,
    call_tool_with_fallback w tool_name arguments s = (s', t, r) ∧
    tool_calls s' = tool_calls s + 1 ∧
    successful_calls s ≤ successful_calls s' ≤ successful_calls s + 1.
Proof.
  pose proof (call_tool_with_fallback_run w tool_name arguments s) as Hrun.
  destruct (primary_outcome w tool_name arguments) as [e|v]; simpl in Hrun;
    [destruct (year_is_2024 arguments)|];
    eexists _, _, _; (split; [exact Hrun|]); simpl; lia.
Qed.

(** C9: a dispatch adds exactly one to [tool_calls] and at most one to
    [successful_calls], never lowers either, and keeps
    [successful_calls ≤ tool_calls]. *)
Theorem dispatch_counters w tool_name arguments s :
  successful_calls s ≤ tool_calls s →
  ∃ s' t r,
    call_tool_with_fallback w tool_name arguments s = (s', t, r) ∧
    tool_calls s < tool_calls s' ∧
    tool_calls s' = tool_calls s + 1 ∧
    successful_calls s ≤ successful_calls s' ≤ successful_calls s + 1 ∧
    successful_calls s' ≤ tool_calls s'.
Proof.
  intros Hinv.
  destruct (dispatch_counter_steps w tool_name arguments s)
    as (s' & t & r & Hrun & Hcalls & Hsucc).
  exists s', t, r. split; [exact Hrun|]. lia.
Qed.

Lemma dispatch_counters_witness :
  successful_calls (init 0) ≤ tool_calls (init 0) ∧
  ∃ s' t r,
    call_tool_with_fallback (outage three_drivers) "get_event_schedule"
      year_2023 (init 0) = (s', t, r) ∧
    tool_calls s' = 1 ∧ successful_calls s' ≤ tool_calls s'.
Proof.
  split; [simpl; lia|].
  destruct (dispatch_counters (outage three_drivers) "get_event_schedule"
              year_2023 (init 0))
    as (s' & t & r & Hrun & _ & Hcalls & _ & Hle); [simpl; lia|].
  exists s', t, r. repeat split; assumption.
Defined.

(** On every bridge a run of dispatches can reach, the invariant holds. *)
Lemma reachable_counters w s :
  reachable w s → 0 ≤ successful_calls s ≤ tool_calls s.
Proof.
  induction 1 as [now|s tool_name arguments s' t r _ IH Hrun]; [simpl; lia|].
  destruct (dispatch_counter_steps w tool_name arguments s)
    as (s1 & t1 & r1 & Hrun1 & ? & ?).
  rewrite Hrun in Hrun1. injection Hrun1 as <- <- <-. lia.
Qed.

(** ** The fallback provider *)

Lemma fallback_requests_In tool_name url timeout :
  In (Requests_get url timeout) (fallback_requests tool_name) →
  (tool_name = "get_championship_standings" ∧
   url = "http://ergast.com/api/f1/2024/driverStandings.json") ∨
  (tool_name = "get_event_schedule" ∧
   url = "http://ergast.com/api/f1/2024.json").
Proof.
  unfold fallback_requests.
  destruct (String.eqb tool_name "get_championship_standings") eqn:H1.
  - apply String.eqb_eq in H1. intros [[= <- _]|[]]. by left.
  - destruct (String.eqb tool_name "get_event_schedule") eqn:H2; [|intros []].
    apply String.eqb_eq in H2. intros [[= <- _]|[]]. by right.
Qed.

(** What the try block does once the upstream's answer is known. *)
Lemma ergast_request_upstream w tool_name url timeout s :
  In (Requests_get url timeout) (fallback_requests tool_name) →
  match upstream w url with
  | ConnectionFailed e =>
      ergast_request w tool_name s = (s, [Requests_get url None], inl e)
  | Response c body =>
      if c =? 200 then
        match body with
        | inl e =>
            ergast_request w tool_name s = (s, [Requests_get url None], inl e)
        | inr data =>
            ∀ e, getitem data "MRData" = inl e →
              ergast_request w tool_name s = (s, [Requests_get url None], inl e)
        end
      else ergast_request w tool_name s = (s, [Requests_get url None], inr None)
  end.
Proof.
  intros [[-> ->]|[-> ->]]%fallback_requests_In;
    unfold ergast_request; simpl;
    unfold ergast_standings, ergast_schedule, requests_get, bind, tell;
    (destruct (upstream w _) as [e|c [e|data]]; [done|..]); simpl;
    (destruct (c =? 200); [|done]); [done| |done|];
    intros e He; unfold lift; simpl; by rewrite He.
Qed.

(** C7, as the code has it: [ergast_fallback] never raises.  Names other
    than the standings and schedule tools are not handled and send no
    request; an exception raised anywhere in the try block is turned into
    "not handled", in particular a transport error, a status other than
    200 (so any non-2xx status), a body that does not parse and a parsed
    body on which a lookup raises.  A body of the wrong shape on which
    nothing raises is answered: an empty string or an empty dictionary in
    the place of the race list, or an empty string in the place of the
    standings, gives Success with an empty list. *)
Theorem ergast_fallback_never_raises w tool_name arguments s :
  ∃ t r,
    ergast_fallback w tool_name arguments s = (s, t, inr r) ∧
    (tool_name ≠ "get_championship_standings" →
     tool_name ≠ "get_event_schedule" →
     r = None ∧ network_calls t = 0%nat) ∧
    (∀ s1 t1 e, ergast_request w tool_name s = (s1, t1, inl e) → r = None) ∧
    (∀ url timeout, In (Requests_get url timeout) t →
       (∀ e, upstream w url = ConnectionFailed e → r = None) ∧
       (∀ c body, upstream w url = Response c body → c ≠ 200 → r = None) ∧
       (∀ e, upstream w url = Response 200 (inl e) → r = None) ∧
       (∀ data e, upstream w url = Response 200 (inr data) →
          getitem data "MRData" = inl e → r = None)) ∧
    (∀ data x1 x2 races,
       tool_name = "get_event_schedule" →
       upstream w "http://ergast.com/api/f1/2024.json"
         = Response 200 (inr data) →
       getitem data "MRData" = inr x1 →
       getitem x1 "RaceTable" = inr x2 →
       getitem x2 "Races" = inr races →
       races = JStr "" ∨ races = JDict [] →
       r = Some (JDict [("status", JStr "success"); ("data", JList [])])) ∧
    (∀ data x1 x2 x3 x4,
       tool_name = "get_championship_standings" →
       upstream w "http://ergast.com/api/f1/2024/driverStandings.json"
         = Response 200 (inr data) →
       getitem data "MRData" = inr x1 →
       getitem x1 "StandingsTable" = inr x2 →
       getitem x2 "StandingsLists" = inr x3 →
       getindex x3 0 = inr x4 →
       getitem x4 "DriverStandings" = inr (JStr "") →
       r = Some (JDict [("status", JStr "success");
                        ("data", JDict [("drivers", JList [])])])).
Proof.
  eexists _, _. split; [apply ergast_fallback_run|].
  destruct (fallback_payload_request w tool_name arguments s) as (r & Hreq & ->).
  split_and!.
  - intros H1 H2.
    destruct (fallback_payload_unsupported w tool_name arguments H1 H2)
      as [_ Hnone].
    rewrite Hnone in *. unfold ergast_request in Hreq.
    apply String.eqb_neq in H1, H2. rewrite H1, H2 in Hreq.
    unfold ret in Hreq. by simplify_eq.
  - intros s1 t1 e He. rewrite Hreq in He. by simplify_eq.
  - intros url timeout [[=]|Hin].
    pose proof (ergast_request_upstream w tool_name url timeout s Hin) as Hup.
    split_and!.
    + intros e He. rewrite He, Hreq in Hup. by simplify_eq.
    + intros c body Hc Hne. rewrite Hc in Hup.
      apply Z.eqb_neq in Hne. rewrite Hne, Hreq in Hup. by simplify_eq.
    + intros e He. rewrite He in Hup. simpl in Hup. rewrite Hreq in Hup.
      by simplify_eq.
    + intros data e He Hkey. rewrite He in Hup. simpl in Hup.
      specialize (Hup e Hkey). rewrite Hreq in Hup. by simplify_eq.
  - intros data x1 x2 races -> Hup H1 H2 H3 Hraces.
    unfold ergast_request in Hreq. simpl in Hreq.
    unfold ergast_schedule, requests_get, bind, tell, lift, ret in Hreq.
    rewrite Hup in Hreq. simpl in Hreq. rewrite H1, H2, H3 in Hreq.
    destruct Hraces as [-> | ->]; simpl in Hreq; by simplify_eq.
  - intros data x1 x2 x3 x4 -> Hup H1 H2 H3 H4 H5.
    unfold ergast_request in Hreq. simpl in Hreq.
    unfold ergast_standings, requests_get, bind, tell, lift, ret in Hreq.
    rewrite Hup in Hreq. simpl in Hreq. rewrite H1, H2, H3, H4, H5 in Hreq.
    simpl in Hreq. by simplify_eq.
Qed.

(** C7, as stated, fails: an upstream whose [Races] is an empty dictionary
    instead of a list is a shape mismatch, yet the fallback answers it with
    Success and an empty schedule, and so does the dispatch. *)
Lemma fallback_answers_odd_shape :
  races_of
    (JDict [("MRData", JDict [("RaceTable", JDict [("Races", JDict [])])])])
    = None ∧
  ergast_fallback (odd_schedule (JDict [])) "get_event_schedule" year_2024
    (init 0) =
    (init 0,
     [Ergast_fallback "get_event_schedule" year_2024;
      Requests_get "http://ergast.com/api/f1/2024.json" None],
     inr (Some (JDict [("status", JStr "success"); ("data", JList [])]))) ∧
  ∃ s' t,
    call_tool_with_fallback (odd_schedule (JDict [])) "get_event_schedule"
      year_2024 (init 0) =
      (s', t, inr (JDict [("status", JStr "success"); ("data", JList [])])).
Proof.
  split; [reflexivity|]. split; [by vm_compute|].
  eexists _, _. by vm_compute.
Qed.

(** C10: an answer that came through the fallback provider leaves the
    endpoint wrapped twice: the provider's own [status]/[data] dictionary
    sits in the [data] field of the endpoint's. *)
Theorem fallback_answer_double_wrapped w request s s' t body :
  call_tool w request s = (s', t, inr body) →
  In (Ergast_fallback (name request) (arguments request)) t →
  ∃ payload d,
    fallback_payload w (name request) (arguments request) = Some payload ∧
    payload = JDict [("status", JStr "success"); ("data", d)] ∧
    body = JDict [("status", JStr "success");
                  ("data", JDict [("status", JStr "success"); ("data", d)])].
Proof.
  rewrite call_tool_run, call_tool_with_fallback_run.
  destruct (primary_outcome w (name request) (arguments request)) as [e|v].
  - simpl. destruct (year_is_2024 (arguments request)); [|done].
    destruct (fallback_payload w (name request) (arguments request))
      as [payload|] eqn:Hpay; [|done].
    rewrite (fallback_payload_truthy _ _ _ _ Hpay).
    apply fallback_payload_envelope in Hpay as [d ->].
    intros [= <- <- <-] _. by exists (JDict [("status", JStr "success"); ("data", d)]), d.
  - intros [= <- <- <-] [[=]|[]].
Qed.

Lemma fallback_answer_double_wrapped_witness :
  ∃ s' t d,
    call_tool (outage three_drivers)
      {| name := "get_championship_standings"; arguments := year_2024 |}
      (init 0) =
      (s', t,
       inr (JDict [("status", JStr "success");
                   ("data", JDict [("status", JStr "success"); ("data", d)])])) ∧
    In (Ergast_fallback "get_championship_standings" year_2024) t.
Proof.
  destruct (call_tool (outage three_drivers)
      {| name := "get_championship_standings"; arguments := year_2024 |}
      (init 0)) as [[s' t] r] eqn:Hrun.
  assert (∃ body, r = inr body) as [body ->].
  { vm_compute in Hrun. injection Hrun as _ _ <-. eauto. }
  assert (In (Ergast_fallback "get_championship_standings" year_2024) t) as Hin.
  { vm_compute in Hrun. injection Hrun as _ <- _. right; left; reflexivity. }
  destruct (fallback_answer_double_wrapped _ _ _ _ _ _ Hrun Hin)
    as (payload & d & _ & _ & ->).
  exists s', t, d. split; [reflexivity|exact Hin].
Defined.

(** C8, as the code has it: for [get_championship_standings] with year 2024,
    a raising primary and a well-formed upstream answer of [n] standings,
    the dispatch succeeds with a [drivers] list of [min 10 n] entries, each
    with exactly the keys driverCode, givenName, familyName, points and
    position; the list has exactly 10 entries when the upstream lists at
    least 10 drivers. *)
Theorem standings_fallback_top_ten w arguments s e data l :
  year_is_2024 arguments = true →
  primary_outcome w "get_championship_standings" arguments = inl e →
  upstream w "http://ergast.com/api/f1/2024/driverStandings.json"
    = Response 200 (inr data) →
  valid_standings data = true →
  standings_of data = Some l →
  ∃ s' t entries,
    call_tool_with_fallback w "get_championship_standings" arguments s =
      (s', t,
       inr (JDict [("status", JStr "success");
                   ("data", JDict [("drivers", JList entries)])])) ∧
    length entries = Nat.min 10 (length l) ∧
    ((10 ≤ length l)%nat → length entries = 10%nat) ∧
    Forall (fun d => entry_keys d = Some standing_keys) entries.
Proof.
  intros Hy Hp Hup Hvalid Hl. unfold valid_standings in Hvalid.
  rewrite Hl in Hvalid.
  destruct (fallback_payload_standings w arguments data l Hup Hl Hvalid)
    as (entries & Hpay & Hlen & Hkeys).
  eexists _, _, entries.
  split; [apply (fallback_rescue_run _ _ _ _ _ _ Hp Hy Hpay)|].
  split_and!; [done|lia|done].
Qed.

Lemma standings_fallback_top_ten_witness :
  valid_standings (standings_body three_drivers) = true ∧
  ∃ s' t entries,
    call_tool_with_fallback (outage three_drivers)
      "get_championship_standings" year_2024 (init 0) =
      (s', t,
       inr (JDict [("status", JStr "success");
                   ("data", JDict [("drivers", JList entries)])])) ∧
    Forall (fun d => entry_keys d = Some standing_keys) entries.
Proof.
  split; [reflexivity|].
  destruct (standings_fallback_top_ten (outage three_drivers) year_2024 (init 0)
              (PyException "RuntimeError" "data source unavailable")
              (standings_body three_drivers) three_drivers)
    as (s' & t & entries & Hrun & _ & _ & Hkeys); try reflexivity.
  exists s', t, entries. split; assumption.
Defined.

(** C8, as stated, fails: a well-formed upstream answer listing three
    drivers gives a Success whose [drivers] list has three entries, not 10. *)
Lemma standings_fallback_short_list :
  year_is_2024 year_2024 = true ∧
  (∃ e, primary_outcome (outage three_drivers)
          "get_championship_standings" year_2024 = inl e) ∧
  valid_standings (standings_body three_drivers) = true ∧
  ∃ s' t entries,
    call_tool_with_fallback (outage three_drivers)
      "get_championship_standings" year_2024 (init 0) =
      (s', t,
       inr (JDict [("status", JStr "success");
                   ("data", JDict [("drivers", JList entries)])])) ∧
    length entries = 3%nat ∧ length entries ≠ 10%nat.
Proof.
  split_and!; [reflexivity|eexists; reflexivity|reflexivity|].
  eexists _, _, _. split; [vm_compute; reflexivity|]. split; [reflexivity|].
  simpl. lia.
Qed.

(** ** Tokens *)

Lemma numeric_date_floor dt :
  dt - 1000000 < jwt.numeric_date dt * 1000000 ≤ dt.
Proof.
  unfold jwt.numeric_date.
  pose proof (Z.mul_div_le dt 1000000 ltac:(lia)).
  pose proof (Z.mul_succ_div_gt dt 1000000 ltac:(lia)). lia.
Qed.

(** C6, as the code has it: the token carries the user id and, as its
    expiry, the time of issue plus one hour cut down to a whole second:
    exactly one hour ahead when the token is issued on a whole second, up
    to one second less otherwise.  Under the library's contract the token
    verifies to that user id at every instant before the stored expiry and
    is Invalid from the stored expiry on; so is a token signed with another
    key and a token the issuer's key never signed; and every verification
    ends either in the one 401 "Invalid token" or in the complete claims
    of a token that was issued. *)
Theorem issued_token_verifies J self user_id utcnow :
  jwt.contract J →
  let token := generate_jwt J self user_id utcnow in
  let stored := jwt.numeric_date (utcnow + timedelta_hours 1) in
  let invalid := inl (HTTPException 401 "Invalid token") in
  utcnow + 3600 * 1000000 - 1000000 < stored * 1000000
    ≤ utcnow + 3600 * 1000000 ∧
  (utcnow mod 1000000 = 0 → stored * 1000000 = utcnow + 3600 * 1000000) ∧
  (∀ now, now < stored * 1000000 →
     verify_jwt J self token now =
       inr (JDict [("user_id", JStr user_id); ("exp", JInt stored)])) ∧
  (∀ now, stored * 1000000 ≤ now → verify_jwt J self token now = invalid) ∧
  (∀ p key alg now, key ≠ jwt_secret self →
     verify_jwt J self (jwt.encode J p key alg) now = invalid) ∧
  (∀ tok now, (∀ p alg, tok ≠ jwt.encode J p (jwt_secret self) alg) →
     verify_jwt J self tok now = invalid) ∧
  (∀ tok now,
     verify_jwt J self tok now = invalid ∨
     ∃ p alg, tok = jwt.encode J p (jwt_secret self) alg ∧
              verify_jwt J self tok now = inr (jwt.claims p)).
Proof.
  intros [Hdecode Hgenuine Hkey]. simpl.
  pose proof (numeric_date_floor (utcnow + timedelta_hours 1)) as Hfloor.
  assert (∀ tok now,
    verify_jwt J self tok now = inl (HTTPException 401 "Invalid token") ∨
    ∃ p alg, tok = jwt.encode J p (jwt_secret self) alg ∧
             verify_jwt J self tok now = inr (jwt.claims p)) as Hcases.
  { intros tok now. unfold verify_jwt.
    destruct (jwt.decode J tok (jwt_secret self) ["HS256"] now) as [err|c]
      eqn:Hd; [by left|].
    destruct (Hgenuine _ _ _ _ _ Hd) as (p & alg & -> & _ & ->). eauto. }
  split; [unfold timedelta_hours in *; lia|]. split_and!.
  - intros Hwhole. unfold jwt.numeric_date, timedelta_hours.
    pose proof (Z.div_mod (utcnow + 1 * 3600 * 1000000) 1000000 ltac:(lia)).
    replace ((utcnow + 1 * 3600 * 1000000) mod 1000000) with 0 in *; [lia|].
    rewrite <- Zplus_mod_idemp_l, Hwhole. done.
  - intros now Hnow. unfold verify_jwt, generate_jwt. rewrite Hdecode. simpl.
    destruct (_ <=? now) eqn:Hle; [apply Z.leb_le in Hle; lia|done].
  - intros now Hnow. unfold verify_jwt, generate_jwt. rewrite Hdecode. simpl.
    destruct (_ <=? now) eqn:Hle; [done|apply Z.leb_gt in Hle; lia].
  - intros p key alg now Hne.
    destruct (Hcases (jwt.encode J p key alg) now)
      as [?|(p' & alg' & Heq & _)]; [done|].
    by apply Hkey in Heq.
  - intros tok now Hforeign.
    destruct (Hcases tok now) as [?|(p & alg & Heq & _)]; [done|].
    by apply Hforeign in Heq.
  - exact Hcases.
Qed.

Lemma reference_jwt_contract : jwt.contract reference_jwt.
Proof.
  split.
  - intros p key alg now. simpl. by rewrite !String.eqb_refl.
  - intros [uid exp k alg|text] key algorithms now c; simpl; [|done].
    destruct (existsb (String.eqb alg) algorithms) eqn:Halg; simpl; [|done].
    destruct (String.eqb k key) eqn:Hk; simpl; [|done].
    apply String.eqb_eq in Hk as ->.
    destruct (exp * 1000000 <=? now); [done|]. intros [= <-].
    exists {| jwt.user_id := uid; jwt.exp := exp * 1000000 |}, alg.
    unfold jwt.claims, jwt.numeric_date. simpl.
    rewrite Z.div_mul by done. split; [done|]. split; [|done].
    apply existsb_exists in Halg as (alg' & Hin & ->%String.eqb_eq).
    by apply list_elem_of_In.
  - by intros p key alg p' key' alg' [= _ _ -> _].
Qed.

Lemma issued_token_verifies_witness :
  verify_jwt reference_jwt (init 0)
    (generate_jwt reference_jwt (init 0) "f1-user" 1700000000500000)
    1700000600000000 =
    inr (JDict [("user_id", JStr "f1-user"); ("exp", JInt 1700003600)]) ∧
  verify_jwt reference_jwt (init 0)
    (generate_jwt reference_jwt (init 0) "f1-user" 1700000000500000)
    1700003600000000 =
    inl (HTTPException 401 "Invalid token") ∧
  verify_jwt reference_jwt (init 0)
    (Signed "f1-user" 1700003600 "some-other-key" "HS256") 1700000600000000 =
    inl (HTTPException 401 "Invalid token") ∧
  verify_jwt reference_jwt (init 0) (Garbled "eyJhbGciOi") 1700000600000000 =
    inl (HTTPException 401 "Invalid token").
Proof.
  destruct (issued_token_verifies reference_jwt (init 0) "f1-user"
              1700000000500000 reference_jwt_contract)
    as (_ & _ & Hfresh & Hexpired & Hkey & Hforeign & _).
  split_and!.
  - apply Hfresh. reflexivity.
  - apply Hexpired. vm_compute. discriminate.
  - apply (Hkey {| jwt.user_id := "f1-user";
                   jwt.exp := 1700003600000000 |} "some-other-key" "HS256").
    discriminate.
  - apply Hforeign. discriminate.
Defined.

(** C6, as stated, fails: a token issued half a second past a whole second
    stores an expiry half a second short of the hour, and is refused
    3599.5 seconds after it was issued. *)
Lemma issued_token_expires_early :
  1700000000500000 + 3599500000 < 1700000000500000 + timedelta_hours 1 ∧
  jwt.numeric_date (1700000000500000 + timedelta_hours 1) * 1000000
    ≠ 1700000000500000 + timedelta_hours 1 ∧
  verify_jwt reference_jwt (init 0)
    (generate_jwt reference_jwt (init 0) "f1-user" 1700000000500000)
    (1700000000500000 + 3599500000) =
    inl (HTTPException 401 "Invalid token").
Proof. split_and!; by vm_compute. Qed.

(** * Further properties *)

(** ** Dispatch paths *)

Lemma primary_outcome_f1 w1 w2 tool_name arguments :
  f1 w1 = f1 w2 →
  primary_outcome w1 tool_name arguments = primary_outcome w2 tool_name arguments.
Proof. unfold primary_outcome, tool_functions. by intros ->. Qed.

(** X1: when the primary returns, the dispatch returns that value as it
    is, counts the call and the success, leaves [errors_by_tool] alone and
    calls nothing but the primary: neither the fallback nor the network,
    whatever the year. *)
Theorem primary_success_dispatch w tool_name arguments s v :
  primary_outcome w tool_name arguments = inr v →
  ∃ s' t,
    call_tool_with_fallback w tool_name arguments s = (s', t, inr v) ∧
    tool_calls s' = tool_calls s + 1 ∧
    successful_calls s' = successful_calls s + 1 ∧
    errors_by_tool s' = errors_by_tool s ∧
    fallback_calls t = 0%nat ∧ network_calls t = 0%nat.
Proof.
  intros Hp. eexists _, _. split; [by apply primary_success_run|]. done.
Qed.

Lemma primary_success_dispatch_witness :
  ∃ s' t,
    call_tool_with_fallback (standings_only (JStr "table") twelve_races)
      "get_championship_standings" year_2024 (init 0) =
      (s', t, inr (JStr "table")) ∧
    errors_by_tool s' = ∅ ∧ fallback_calls t = 0%nat.
Proof.
  destruct (primary_success_dispatch (standings_only (JStr "table") twelve_races)
              "get_championship_standings" year_2024 (init 0) (JStr "table"))
    as (s' & t & Hrun & _ & _ & Herr & Hf & _); [reflexivity|].
  exists s', t. split; [exact Hrun|]. split; [exact Herr|exact Hf].
Defined.

(** X2: the endpoint has two outcomes only: the 200 envelope around what
    the dispatch returned, or an [HTTPException] with status 500 whose
    detail is the message of the primary's exception (what went wrong
    inside the fallback never shows).  It changes the bridge and calls out
    exactly as the dispatch does. *)
Theorem call_tool_outcomes w request s :
  ∃ s' t,
    (∃ v,
       call_tool_with_fallback w (name request) (arguments request) s
         = (s', t, inr v) ∧
       call_tool w request s =
         (s', t, inr (JDict [("status", JStr "success"); ("data", v)]))) ∨
    (∃ e,
       primary_outcome w (name request) (arguments request) = inl e ∧
       call_tool_with_fallback w (name request) (arguments request) s
         = (s', t, inl e) ∧
       call_tool w request s = (s', t, inl (HTTPException 500 (str_exn e)))).
Proof.
  rewrite call_tool_run.
  pose proof (call_tool_with_fallback_run w (name request) (arguments request) s)
    as Hrun.
  destruct (primary_outcome w (name request) (arguments request)) as [e|v].
  - simpl in Hrun. destruct (year_is_2024 (arguments request)).
    + destruct (fallback_payload w (name request) (arguments request)) as [p|];
        [destruct (py_truthy p)|]; rewrite Hrun; eexists _, _;
        [left|right|right]; eauto.
    + rewrite Hrun. eexists _, _. right. eauto.
  - rewrite Hrun. eexists _, _. left. eauto.
Qed.

Lemma call_tool_outcomes_witness :
  ∃ s' t,
    call_tool no_such_season (request_for "get_event_info" 2023) (init 0)
      = (s', t, inl (HTTPException 500 "404: no such season")).
Proof.
  destruct (call_tool_outcomes no_such_season
              (request_for "get_event_info" 2023) (init 0))
    as (s' & t & [(v & Hd & _)|(e & Hp & _ & Hc)]).
  - exfalso. vm_compute in Hd. discriminate Hd.
  - exists s', t. vm_compute in Hp. injection Hp as <-. exact Hc.
Defined.

(** X3: the upstream matters only for a failed primary with year 2024: two
    worlds with the same data functions answer a request alike, trace and
    counters included, when the year is not 2024 or the primary returns. *)
Theorem upstream_irrelevant w1 w2 request s :
  f1 w1 = f1 w2 →
  year_is_2024 (arguments request) = false ∨
    (∃ v, primary_outcome w1 (name request) (arguments request) = inr v) →
  call_tool w1 request s = call_tool w2 request s.
Proof.
  intros Hf1 Hcase. rewrite !call_tool_run, !call_tool_with_fallback_run.
  rewrite <- (primary_outcome_f1 w1 w2 _ _ Hf1).
  destruct Hcase as [Hy|[v Hv]].
  - rewrite Hy. by destruct (primary_outcome w1 _ _).
  - by rewrite Hv.
Qed.

Lemma upstream_irrelevant_witness :
  call_tool (outage three_drivers) (request_for "get_event_schedule" 2023) (init 0) =
  call_tool blackout (request_for "get_event_schedule" 2023) (init 0).
Proof.
  apply (upstream_irrelevant (outage three_drivers) blackout
           (request_for "get_event_schedule" 2023) (init 0)).
  - reflexivity.
  - left. reflexivity.
Defined.

(** X4: the fallback provider looks at the tool name only: its answer and
    the requests it sends are the same for any two argument dictionaries
    and any two bridges, and it leaves the bridge as it was. *)
Theorem ergast_fallback_ignores_arguments w tool_name arguments1 arguments2 s1 s2 :
  ∃ t1 t2 r,
    ergast_fallback w tool_name arguments1 s1 = (s1, t1, inr r) ∧
    ergast_fallback w tool_name arguments2 s2 = (s2, t2, inr r) ∧
    List.filter is_network_call t1 = List.filter is_network_call t2.
Proof.
  assert (fallback_payload w tool_name arguments2
          = fallback_payload w tool_name arguments1) as Heq.
  { destruct (fallback_payload_request w tool_name arguments1 s1)
      as (r1 & H1 & ->).
    destruct (fallback_payload_request w tool_name arguments2 s1)
      as (r2 & H2 & ->).
    rewrite H1 in H2. by simplify_eq. }
  exists (Ergast_fallback tool_name arguments1 :: fallback_requests tool_name),
    (Ergast_fallback tool_name arguments2 :: fallback_requests tool_name),
    (fallback_payload w tool_name arguments1).
  by rewrite !ergast_fallback_run, Heq.
Qed.

(** ** Error counts *)

(** X5: a dispatch touches the error count of its own tool only, raising
    it by one when the primary raised and not at all when it returned; the
    counts of all other tools stay as they were. *)
Theorem dispatch_errors_frame w tool_name arguments s :
  ∃ s' t r,
    call_tool_with_fallback w tool_name arguments s = (s', t, r) ∧
    (∀ other, other ≠ tool_name →
       errors_by_tool s' !! other = errors_by_tool s !! other) ∧
    (∀ e, primary_outcome w tool_name arguments = inl e →
       errors_by_tool s' !! tool_name =
         Some (default 0 (errors_by_tool s !! tool_name) + 1)) ∧
    (∀ v, primary_outcome w tool_name arguments = inr v →
       errors_by_tool s' = errors_by_tool s).
Proof.
  pose proof (call_tool_with_fallback_run w tool_name arguments s) as Hrun.
  destruct (primary_outcome w tool_name arguments) as [e|v]; simpl in Hrun;
    [destruct (year_is_2024 arguments)|];
    eexists _, _, _; (split; [exact Hrun|]); simpl; split_and!;
    try done; intros; by rewrite ?lookup_insert_eq, ?lookup_insert_ne.
Qed.

Lemma total_errors_incr (errors : gmap string Z) tool_name :
  total_errors (<[tool_name := default 0 (errors !! tool_name) + 1]> errors) =
  total_errors errors + 1.
Proof.
  unfold total_errors.
  destruct (errors !! tool_name) as [n|] eqn:Hn; simpl.
  - rewrite <- insert_delete_eq.
    rewrite map_fold_insert_L; [|intros; lia|apply lookup_delete_eq].
    rewrite (map_fold_delete_L _ _ tool_name n errors); [lia|intros; lia|done].
  - rewrite map_fold_insert_L; [lia|intros; lia|done].
Qed.

(** X6: on every bridge a run of dispatches can reach, each call is booked
    exactly once, as a success or as an error of its tool: [tool_calls] is
    [successful_calls] plus the sum of all error counts. *)
Theorem calls_accounted w s :
  reachable w s →
  tool_calls s = successful_calls s + total_errors (errors_by_tool s).
Proof.
  induction 1 as [now|s tool_name arguments s' t r _ IH Hrun]; [done|].
  rewrite call_tool_with_fallback_run in Hrun.
  destruct (primary_outcome w tool_name arguments) as [e|v]; simpl in Hrun;
    [destruct (year_is_2024 arguments)|];
    injection Hrun as <- _ _; simpl; rewrite ?total_errors_incr; lia.
Qed.

Lemma calls_accounted_witness :
  ∃ s' t r,
    call_tool_with_fallback (outage three_drivers)
      "get_championship_standings" year_2024 (init 0) = (s', t, r) ∧
    tool_calls s' = successful_calls s' + total_errors (errors_by_tool s').
Proof.
  destruct (call_tool_with_fallback (outage three_drivers)
      "get_championship_standings" year_2024 (init 0)) as [[s' t] r] eqn:Hrun.
  exists s', t, r. split; [reflexivity|].
  apply (calls_accounted (outage three_drivers)).
  exact (reachable_dispatch _ _ _ _ _ _ _ (reachable_init _ 0) Hrun).
Defined.

(** X7: on every reachable bridge a tool is listed in [errors_by_tool] only
    with a positive count: the dictionary never holds a zero or negative
    entry. *)
Theorem error_counts_positive w s tool_name n :
  reachable w s →
  errors_by_tool s !! tool_name = Some n →
  1 ≤ n.
Proof.
  intros Hreach. revert tool_name n.
  induction Hreach as [now|s name0 arguments s' t r _ IH Hrun];
    intros tool_name n; [simpl; by rewrite lookup_empty|].
  assert (errors_by_tool s' = errors_by_tool s ∨
          errors_by_tool s' = errors_by_tool (incr_errors name0 s)) as [->| ->].
  { rewrite call_tool_with_fallback_run in Hrun.
    destruct (primary_outcome w name0 arguments) as [e|v]; simpl in Hrun;
      [destruct (year_is_2024 arguments)|];
      injection Hrun as <- _ _; auto. }
  - apply IH.
  - simpl. destruct (decide (tool_name = name0)) as [->|Hne].
    + rewrite lookup_insert_eq. intros [= <-].
      destruct (errors_by_tool s !! name0) as [k|] eqn:Hk; simpl; [|lia].
      specialize (IH _ _ Hk). lia.
    + rewrite lookup_insert_ne by done. apply IH.
Qed.

Lemma error_counts_positive_witness :
  ∃ s' t r,
    call_tool_with_fallback blackout "get_weather" year_2023 (init 0)
      = (s', t, r) ∧
    errors_by_tool s' !! "get_weather" = Some 1 ∧ 1 ≤ 1.
Proof.
  destruct (call_tool_with_fallback blackout "get_weather" year_2023 (init 0))
    as [[s' t] r] eqn:Hrun.
  assert (errors_by_tool s' !! "get_weather" = Some 1) as Hcount.
  { vm_compute in Hrun. injection Hrun as <- _ _. reflexivity. }
  exists s', t, r. split; [reflexivity|]. split; [exact Hcount|].
  exact (error_counts_positive blackout s' "get_weather" 1
           (reachable_dispatch _ _ _ _ _ _ _ (reachable_init _ 0) Hrun) Hcount).
Defined.

(** ** Health *)

(** X8: on every reachable bridge the health check returns without
    changing the bridge or calling out, reports [tool_calls] and
    [errors_by_tool] as they are, and its [success_rate] is a finite float
    between 0 and 100. *)
Theorem success_rate_bounds w now s :
  reachable w s →
  ∃ h,
    health_check now s = (s, [], inr h) ∧
    is_finite (success_rate h) = true ∧
    (0 <= float_value (success_rate h))%Q ∧
    (float_value (success_rate h) <= 100)%Q ∧
    health_tool_calls h = tool_calls s ∧ errors h = errors_by_tool s.
Proof.
  intros Hinv%reachable_counters.
  unfold health_check. rewrite get_health_metrics_run.
  destruct (0 <? tool_calls s) eqn:Hpos.
  - apply Z.ltb_lt in Hpos.
    destruct (percentage_float _ _ Hinv Hpos) as (q & -> & Hfin & Hlo & Hhi & _).
    eexists. split; [reflexivity|]. done.
  - eexists. split; [reflexivity|]. done.
Qed.

(** ** Requests in sequence *)

Lemma run_requests_reachable w requests s :
  reachable w s → reachable w (run_requests w requests s).
Proof.
  revert s. induction requests as [|request requests IH]; intros s Hs; [done|].
  simpl. apply IH. rewrite call_tool_run.
  destruct (call_tool_with_fallback w (name request) (arguments request) s)
    as [[s' t] r] eqn:Hrun.
  assert (reachable w s') by (eapply reachable_dispatch; eauto).
  by destruct r.
Qed.

Lemma success_rate_bounds_witness :
  ∃ h,
    health_check 9 (run_requests (standings_only JNull []) one_in_three (init 0))
      = (run_requests (standings_only JNull []) one_in_three (init 0), [], inr h) ∧
    success_rate h = FFinite false 4691249611844266 (-47) ∧
    (0 <= float_value (success_rate h))%Q ∧
    (float_value (success_rate h) <= 100)%Q.
Proof.
  destruct (success_rate_bounds (standings_only JNull []) 9
              (run_requests (standings_only JNull []) one_in_three (init 0))
              (run_requests_reachable _ _ _ (reachable_init _ 0)))
    as (h & Hrun & _ & Hlo & Hhi & _).
  exists h. split; [exact Hrun|]. split; [|split; assumption].
  pose proof Hrun as Hh. vm_compute in Hh. injection Hh as <-. reflexivity.
Defined.

Lemma call_tool_state w request s :
  (call_tool w request s).1.1 =
  if primary_ok w request then incr_successful_calls (incr_tool_calls s)
  else incr_errors (name request) (incr_tool_calls s).
Proof.
  rewrite call_tool_run, call_tool_with_fallback_run. unfold primary_ok.
  destruct (primary_outcome w (name request) (arguments request)) as [e|v];
    [|done].
  simpl. destruct (year_is_2024 (arguments request)); [|done].
  destruct (fallback_payload w (name request) (arguments request)) as [p|];
    [by destruct (py_truthy p)|done].
Qed.

(** X9: after a sequence of requests, [tool_calls] has grown by their
    number, [successful_calls] by the number whose primary returned, and the
    error count of each tool by the number of its requests whose primary
    raised (whether or not the fallback then answered). *)
Theorem run_requests_counts w requests s tool_name :
  let s' := run_requests w requests s in
  tool_calls s' = tool_calls s + Z.of_nat (length requests) ∧
  successful_calls s' =
    successful_calls s + Z.of_nat (primary_successes w requests) ∧
  default 0 (errors_by_tool s' !! tool_name) =
    default 0 (errors_by_tool s !! tool_name)
    + Z.of_nat (primary_failures w tool_name requests).
Proof.
  simpl. revert s. unfold primary_successes, primary_failures.
  induction requests as [|request requests IH]; intros s; [simpl; lia|].
  simpl. destruct (IH (call_tool w request s).1.1) as (Hc & Hs & He).
  rewrite Hc, Hs, He, call_tool_state.
  destruct (primary_ok w request); simpl.
  - lia.
  - destruct (String.eqb (name request) tool_name) eqn:Hn; simpl.
    + apply String.eqb_eq in Hn as <-. rewrite lookup_insert_eq. simpl. lia.
    + apply String.eqb_neq in Hn. rewrite lookup_insert_ne by done. lia.
Qed.

Lemma run_requests_calls w requests s :
  tool_calls (run_requests w requests s)
    = tool_calls s + Z.of_nat (length requests) ∧
  successful_calls (run_requests w requests s)
    = successful_calls s + Z.of_nat (primary_successes w requests).
Proof.
  revert s. unfold primary_successes.
  induction requests as [|request requests IH]; intros s; [simpl; lia|].
  simpl. destruct (IH (call_tool w request s).1.1) as (Hc & Hs).
  rewrite Hc, Hs, call_tool_state.
  destruct (primary_ok w request); simpl; lia.
Qed.

Lemma primary_successes_le w requests :
  (primary_successes w requests ≤ length requests)%nat.
Proof. apply List.filter_length_le. Qed.

(** X10: a fresh bridge that has served a non-empty sequence of requests
    reports as [success_rate] the float Python computes for (requests whose
    primary returned) / (number of requests) * 100, within 2^-45 of that
    share times 100; a request the fallback answered counts as failed. *)
Theorem run_requests_success_rate w requests start now :
  requests ≠ [] →
  ∃ h q,
    health_check now (run_requests w requests (init start))
      = (run_requests w requests (init start), [], inr h) ∧
    truediv (Z.of_nat (primary_successes w requests))
            (Z.of_nat (length requests)) = inr q ∧
    success_rate h = float_mul q hundred ∧
    (Qabs (float_value (success_rate h)
           - inject_Z (Z.of_nat (primary_successes w requests))
             / inject_Z (Z.of_nat (length requests)) * 100)
       <= 1 # 2 ^ 45)%Q.
Proof.
  intros Hne.
  destruct (run_requests_calls w requests (init start)) as (Hc & Hs).
  simpl in Hc, Hs. rewrite Z.add_0_l in Hc, Hs.
  assert (0 < Z.of_nat (length requests)) as Hpos
    by (destruct requests; [done|simpl; lia]).
  pose proof (primary_successes_le w requests) as Hle.
  destruct (percentage_float (Z.of_nat (primary_successes w requests))
              (Z.of_nat (length requests)) ltac:(lia) Hpos)
    as (q & Hq & _ & _ & _ & Herr).
  unfold health_check. rewrite get_health_metrics_run, Hc, Hs, Hq.
  apply Z.ltb_lt in Hpos. rewrite Hpos.
  eexists _, q. split; [reflexivity|]. split; [reflexivity|].
  split; [reflexivity|]. exact Herr.
Qed.

Lemma run_requests_success_rate_witness :
  ∃ h,
    health_check 9 (run_requests (standings_only JNull []) one_in_three (init 0))
      = (run_requests (standings_only JNull []) one_in_three (init 0), [], inr h) ∧
    success_rate h = FFinite false 4691249611844266 (-47).
Proof.
  destruct (run_requests_success_rate (standings_only JNull []) one_in_three 0 9)
    as (h & q & Hrun & Hq & Hrate & _); [discriminate|].
  exists h. split; [exact Hrun|].
  rewrite Hrate. vm_compute in Hq. injection Hq as <-. reflexivity.
Defined.

(** ** Re-projection *)

Lemma mapM_traverse {A B} (f : A → M B) (g : A → result B) l s :
  (∀ x s, f x s = (s, [], g x)) → mapM f l s = (s, [], traverse g l).
Proof.
  intros Hf. induction l as [|x l IH]; [done|].
  simpl. unfold bind at 1. rewrite Hf. destruct (g x) as [e|y]; [done|].
  unfold bind at 1. rewrite IH. by destruct (traverse g l).
Qed.

Lemma traverse_inr {A B} (g : A → result B) l ys :
  traverse g l = inr ys ↔ Forall2 (fun x y => g x = inr y) l ys.
Proof.
  revert ys. induction l as [|x l IH]; intros ys; simpl.
  - split; [by intros [= <-]; constructor|by inversion 1].
  - destruct (g x) as [e|y] eqn:Hx.
    + split; [done|]. inversion 1; congruence.
    + destruct (traverse g l) as [e|zs].
      * split; [done|]. inversion 1 as [|? ? ? ? ? Hl]; subst.
        by apply IH in Hl.
      * split.
        -- intros [= <-]. constructor; [done|]. by apply IH.
        -- inversion 1 as [|? y' ? zs' Hy Hl]; subst.
           apply IH in Hl. congruence.
Qed.

Lemma traverse_inl {A B} (g : A → result B) l :
  Exists (fun x => ∃ e, g x = inl e) l → ∃ e, traverse g l = inl e.
Proof.
  induction 1 as [x l [e He]|x l _ [e IH]]; simpl.
  - rewrite He. eauto.
  - destruct (g x); [eauto|]. rewrite IH. eauto.
Qed.

Lemma race_entry_run race s : race_entry race s = (s, [], race_of race).
Proof.
  destruct (stateless_race_entry race) as [r Hr].
  unfold race_of. by rewrite !Hr.
Qed.

Lemma getitem_has_key k v x : getitem v k = inr x → has_key k v = true.
Proof.
  destruct v; try done. simpl. by destruct (assoc k d).
Qed.

Lemma entry_of_projection driver entry :
  entry_of driver = inr entry ↔ standing_projection driver entry.
Proof.
  unfold entry_of, standing_entry, standing_projection, bind, lift, ret.
  split.
  - intros H.
    destruct (getitem driver "Driver") as [|d] eqn:Hd; [done|].
    destruct (getitem d "code") as [|c] eqn:Hc; [done|].
    destruct (getitem d "givenName") as [|g] eqn:Hg; [done|].
    destruct (getitem d "familyName") as [|f] eqn:Hf; [done|].
    destruct (getitem driver "points") as [|p] eqn:Hp; [done|].
    destruct (getitem driver "position") as [|q] eqn:Hq; [done|].
    simpl in H. injection H as <-. by exists d, c, g, f, p, q.
  - intros (d & c & g & f & p & q & Hd & Hc & Hg & Hf & Hp & Hq & ->).
    by rewrite Hd, Hc, Hg, Hf, Hp, Hq.
Qed.

Lemma race_of_projection race entry :
  race_of race = inr entry ↔ race_projection race entry.
Proof.
  unfold race_of, race_entry, race_projection, bind, lift, ret.
  split.
  - intros H.
    destruct (getitem race "raceName") as [|n] eqn:Hn; [done|].
    destruct (getitem race "date") as [|d] eqn:Hd; [done|].
    destruct (getitem race "Circuit") as [|c] eqn:Hc; [done|].
    destruct (getitem c "circuitName") as [|cn] eqn:Hcn; [done|].
    destruct (getitem race "round") as [|r] eqn:Hr; [done|].
    simpl in H. injection H as <-. by exists c, n, d, cn, r.
  - intros (c & n & d & cn & r & Hn & Hd & Hc & Hcn & Hr & ->).
    by rewrite Hn, Hd, Hc, Hcn, Hr.
Qed.

Lemma valid_standing_entry_of driver :
  valid_standing driver = true ↔ ∃ entry, entry_of driver = inr entry.
Proof.
  split.
  - intros (c & g & f & p & q & H)%entry_of_valid. eauto.
  - intros [entry (d & c & g & f & p & q & Hd & Hc & Hg & Hf & Hp & Hq & _)
                    %entry_of_projection].
    unfold valid_standing. rewrite Hd.
    by rewrite (getitem_has_key _ _ _ Hp), (getitem_has_key _ _ _ Hq),
      (getitem_has_key _ _ _ Hc), (getitem_has_key _ _ _ Hg),
      (getitem_has_key _ _ _ Hf).
Qed.

Lemma valid_race_race_of race :
  valid_race race = true → ∃ entry, race_of race = inr entry.
Proof.
  unfold valid_race. intros H.
  apply andb_true_iff in H as [[[Hn Hd]%andb_true_iff Hr]%andb_true_iff H].
  destruct (getitem race "Circuit") as [|c] eqn:Hc; [done|].
  apply has_key_getitem in Hn as [n Hn], Hd as [d Hd], Hr as [r Hr],
    H as [cn Hcn].
  eexists. apply race_of_projection. by exists c, n, d, cn, r.
Qed.

(** The standings branch, once the upstream's answer is a list. *)
Lemma fallback_payload_standings_run w arguments data l :
  upstream w "http://ergast.com/api/f1/2024/driverStandings.json"
    = Response 200 (inr data) →
  standings_of data = Some l →
  fallback_payload w "get_championship_standings" arguments =
    match traverse entry_of (take 10 l) with
    | inr entries =>
        Some (JDict [("status", JStr "success");
                     ("data", JDict [("drivers", JList entries)])])
    | inl _ => None
    end.
Proof.
  intros Hup (x1 & x2 & x3 & x4 & H1 & H2 & H3 & H4 & H5)%standings_of_inv.
  destruct (fallback_payload_request w "get_championship_standings" arguments
              (init 0)) as (r & Hreq & ->).
  unfold ergast_request in Hreq. simpl in Hreq.
  unfold ergast_standings, requests_get, bind, tell, lift, ret in Hreq.
  rewrite Hup in Hreq. simpl in Hreq.
  rewrite H1, H2, H3, H4, H5 in Hreq. simpl in Hreq.
  rewrite (mapM_traverse _ entry_of) in Hreq by apply standing_entry_run.
  destruct (traverse entry_of (take 10 l)); by simplify_eq.
Qed.

(** The schedule branch, once the upstream's answer is a list. *)
Lemma fallback_payload_schedule_run w arguments data l :
  upstream w "http://ergast.com/api/f1/2024.json" = Response 200 (inr data) →
  races_of data = Some l →
  fallback_payload w "get_event_schedule" arguments =
    match traverse race_of l with
    | inr entries =>
        Some (JDict [("status", JStr "success"); ("data", JList entries)])
    | inl _ => None
    end.
Proof.
  intros Hup Hl.
  assert (∃ x1 x2, getitem data "MRData" = inr x1 ∧
            getitem x1 "RaceTable" = inr x2 ∧
            getitem x2 "Races" = inr (JList l)) as (x1 & x2 & H1 & H2 & H3).
  { unfold races_of in Hl. repeat case_match; try done. simplify_eq. eauto. }
  destruct (fallback_payload_request w "get_event_schedule" arguments
              (init 0)) as (r & Hreq & ->).
  unfold ergast_request in Hreq. simpl in Hreq.
  unfold ergast_schedule, requests_get, bind, tell, lift, ret in Hreq.
  rewrite Hup in Hreq. simpl in Hreq.
  rewrite H1, H2, H3 in Hreq. simpl in Hreq.
  rewrite (mapM_traverse _ race_of) in Hreq by apply race_entry_run.
  destruct (traverse race_of l); by simplify_eq.
Qed.

Lemma traverse_entry_of_valid l :
  forallb valid_standing l = true → ∃ entries, traverse entry_of l = inr entries.
Proof.
  induction l as [|d l IH]; simpl; [eauto|].
  intros [Hd Hl]%andb_true_iff.
  apply valid_standing_entry_of in Hd as [entry ->].
  destruct (IH Hl) as [entries ->]. eauto.
Qed.

Lemma traverse_entry_of_invalid l :
  forallb valid_standing l = false → ∃ e, traverse entry_of l = inl e.
Proof.
  intros Hbad. apply traverse_inl. revert Hbad.
  induction l as [|d l IH]; simpl; [done|].
  destruct (valid_standing d) eqn:Hd; simpl.
  - intros H. right. by apply IH.
  - intros _. left. destruct (entry_of d) as [e'|entry] eqn:He; [eauto|].
    assert (valid_standing d = true) by (apply valid_standing_entry_of; eauto).
    congruence.
Qed.

Lemma traverse_race_of_valid l :
  forallb valid_race l = true → ∃ entries, traverse race_of l = inr entries.
Proof.
  induction l as [|d l IH]; simpl; [eauto|].
  intros [Hd Hl]%andb_true_iff.
  apply valid_race_race_of in Hd as [entry ->].
  destruct (IH Hl) as [entries ->]. eauto.
Qed.

(** X11: the standings fallback copies, position by position, the code,
    given name, family name, points and position of the first ten upstream
    standings into its entries; standings after the tenth are not read, so
    they need not be well formed. *)
Theorem standings_fallback_projection w arguments data l :
  upstream w "http://ergast.com/api/f1/2024/driverStandings.json"
    = Response 200 (inr data) →
  standings_of data = Some l →
  forallb valid_standing (take 10 l) = true →
  ∃ entries,
    fallback_payload w "get_championship_standings" arguments =
      Some (JDict [("status", JStr "success");
                   ("data", JDict [("drivers", JList entries)])]) ∧
    Forall2 standing_projection (take 10 l) entries.
Proof.
  intros Hup Hl Hvalid.
  rewrite (fallback_payload_standings_run _ _ _ _ Hup Hl).
  destruct (traverse_entry_of_valid _ Hvalid) as [entries Ht]. rewrite Ht.
  exists entries. split; [done|].
  apply traverse_inr in Ht. eapply Forall2_impl; [exact Ht|].
  intros d entry. apply entry_of_projection.
Qed.

Lemma standings_fallback_projection_witness :
  forallb valid_standing
    (take 10 (replicate 10 (standing "1" "437" "VER" "Max" "Verstappen")
              ++ [JNull])) = true ∧
  ∃ entries,
    fallback_payload
      (outage (replicate 10 (standing "1" "437" "VER" "Max" "Verstappen")
               ++ [JNull]))
      "get_championship_standings" year_2024 =
      Some (JDict [("status", JStr "success");
                   ("data", JDict [("drivers", JList entries)])]) ∧
    length entries = 10%nat.
Proof.
  split; [reflexivity|].
  destruct (standings_fallback_projection
              (outage (replicate 10 (standing "1" "437" "VER" "Max" "Verstappen")
                       ++ [JNull]))
              year_2024
              (standings_body
                 (replicate 10 (standing "1" "437" "VER" "Max" "Verstappen")
                  ++ [JNull]))
              (replicate 10 (standing "1" "437" "VER" "Max" "Verstappen")
               ++ [JNull]))
    as (entries & Hpay & Hall); try reflexivity.
  exists entries. split; [exact Hpay|].
  apply Forall2_length in Hall. rewrite <- Hall. reflexivity.
Defined.

(** X12: one malformed standing among the first ten spoils the whole
    answer: the fallback handles nothing, and a dispatch whose primary
    raised fails with the primary's exception although the request was
    sent and answered 200. *)
Theorem standings_fallback_all_or_nothing w arguments s e data l :
  year_is_2024 arguments = true →
  primary_outcome w "get_championship_standings" arguments = inl e →
  upstream w "http://ergast.com/api/f1/2024/driverStandings.json"
    = Response 200 (inr data) →
  standings_of data = Some l →
  forallb valid_standing (take 10 l) = false →
  fallback_payload w "get_championship_standings" arguments = None ∧
  ∃ s' t,
    call_tool_with_fallback w "get_championship_standings" arguments s
      = (s', t, inl e) ∧
    network_calls t = 1%nat.
Proof.
  intros Hy Hp Hup Hl Hbad.
  assert (fallback_payload w "get_championship_standings" arguments = None)
    as Hnone.
  { rewrite (fallback_payload_standings_run _ _ _ _ Hup Hl).
    by destruct (traverse_entry_of_invalid _ Hbad) as [e' ->]. }
  split; [exact Hnone|].
  pose proof (call_tool_with_fallback_run w "get_championship_standings"
                arguments s) as Hrun.
  rewrite Hp in Hrun. simpl in Hrun. rewrite Hy, Hnone in Hrun.
  eexists _, _. split; [exact Hrun|]. reflexivity.
Qed.

Lemma standings_fallback_all_or_nothing_witness :
  forallb valid_standing (take 10 (JNull :: three_drivers)) = false ∧
  ∃ s' t,
    call_tool_with_fallback (outage (JNull :: three_drivers))
      "get_championship_standings" year_2024 (init 0) =
      (s', t, inl (PyException "RuntimeError" "data source unavailable")).
Proof.
  split; [reflexivity|].
  destruct (standings_fallback_all_or_nothing (outage (JNull :: three_drivers))
              year_2024 (init 0)
              (PyException "RuntimeError" "data source unavailable")
              (standings_body (JNull :: three_drivers)) (JNull :: three_drivers))
    as (_ & s' & t & Hrun & _); try reflexivity.
  exists s', t. exact Hrun.
Defined.

(** X13: an upstream answer whose [StandingsLists] is empty (a season with
    no standings yet) is not handled: the index error of [[0]] is
    swallowed. *)
Theorem standings_fallback_empty_lists w arguments data x1 x2 :
  upstream w "http://ergast.com/api/f1/2024/driverStandings.json"
    = Response 200 (inr data) →
  getitem data "MRData" = inr x1 →
  getitem x1 "StandingsTable" = inr x2 →
  getitem x2 "StandingsLists" = inr (JList []) →
  fallback_payload w "get_championship_standings" arguments = None.
Proof.
  intros Hup H1 H2 H3.
  destruct (fallback_payload_request w "get_championship_standings" arguments
              (init 0)) as (r & Hreq & ->).
  unfold ergast_request in Hreq. simpl in Hreq.
  unfold ergast_standings, requests_get, bind, tell, lift, ret in Hreq.
  rewrite Hup in Hreq. simpl in Hreq.
  rewrite H1, H2, H3 in Hreq. simpl in Hreq. by simplify_eq.
Qed.

Lemma standings_fallback_empty_lists_witness :
  fallback_payload
    {| f1 := f1_down;
       upstream := fun _ =>
         Response 200
           (inr (JDict [("MRData",
                   JDict [("StandingsTable",
                     JDict [("StandingsLists", JList [])])])])) |}
    "get_championship_standings" year_2024 = None.
Proof.
  eapply standings_fallback_empty_lists; reflexivity.
Defined.

(** X14: the schedule fallback answers with every race of the upstream
    list (there is no cut at ten), in order, each re-projected to EventName,
    EventDate, CircuitName and RoundNumber with the upstream's values; a
    dispatch whose primary raised returns that answer. *)
Theorem schedule_fallback_projection w arguments s e data l :
  year_is_2024 arguments = true →
  primary_outcome w "get_event_schedule" arguments = inl e →
  upstream w "http://ergast.com/api/f1/2024.json" = Response 200 (inr data) →
  races_of data = Some l →
  forallb valid_race l = true →
  ∃ s' t entries,
    call_tool_with_fallback w "get_event_schedule" arguments s =
      (s', t,
       inr (JDict [("status", JStr "success"); ("data", JList entries)])) ∧
    length entries = length l ∧
    Forall2 race_projection l entries.
Proof.
  intros Hy Hp Hup Hl Hvalid.
  pose proof (fallback_payload_schedule_run w arguments data l Hup Hl) as Hpay.
  destruct (traverse_race_of_valid _ Hvalid) as [entries Ht].
  rewrite Ht in Hpay. apply traverse_inr in Ht.
  eexists _, _, entries.
  split; [apply (fallback_rescue_run _ _ _ _ _ _ Hp Hy Hpay)|].
  split; [symmetry; by eapply Forall2_length|].
  eapply Forall2_impl; [exact Ht|]. intros d entry. apply race_of_projection.
Qed.

Lemma schedule_fallback_projection_witness :
  forallb valid_race twelve_races = true ∧
  ∃ s' t entries,
    call_tool_with_fallback (standings_only JNull twelve_races)
      "get_event_schedule" year_2024 (init 0) =
      (s', t,
       inr (JDict [("status", JStr "success"); ("data", JList entries)])) ∧
    length entries = 12%nat.
Proof.
  split; [reflexivity|].
  destruct (schedule_fallback_projection (standings_only JNull twelve_races)
              year_2024 (init 0)
              (PyException "RuntimeError" "data source unavailable")
              (schedule_body twelve_races) twelve_races)
    as (s' & t & entries & Hrun & Hlen & _); try reflexivity.
  exists s', t, entries. split; [exact Hrun|exact Hlen].
Defined.

(** ** The stream *)

Lemma heartbeat_loop_delivered isoformat env :
  forallb delivered env = true →
  heartbeat_loop isoformat env = (beats isoformat env, None).
Proof.
  induction env as [|tk env IH]; simpl; [done|].
  unfold delivered at 1. destruct (send_text tk); [done|]. simpl.
  intros H. by rewrite (IH H).
Qed.

Lemma heartbeat_loop_app isoformat pre env :
  forallb delivered pre = true →
  heartbeat_loop isoformat (pre ++ env) =
    (beats isoformat pre ++ (heartbeat_loop isoformat env).1,
     (heartbeat_loop isoformat env).2).
Proof.
  induction pre as [|tk pre IH]; simpl; [by destruct (heartbeat_loop _ env)|].
  unfold delivered at 1. destruct (send_text tk); [done|]. simpl.
  intros H. rewrite (IH H). done.
Qed.

(** X15: once accepted, the stream never ends by itself: as long as every
    send goes through the handler is still looping, having sent one
    heartbeat frame per pass, each stamped with that pass's clock reading
    and followed by a 30 second sleep. *)
Theorem stream_keeps_beating isoformat env :
  forallb delivered env = true →
  websocket_endpoint isoformat None env
    = (Ws_accept :: beats isoformat env, Ws_open) ∧
  length (beats isoformat env) = (2 * length env)%nat.
Proof.
  intros H. unfold websocket_endpoint.
  rewrite (heartbeat_loop_delivered _ _ H). split; [done|].
  clear H. induction env as [|tk env IH]; simpl; [done|]. rewrite IH. lia.
Qed.

Lemma stream_keeps_beating_witness :
  websocket_endpoint (fun _ => "2024-03-02T15:00:00") None
    [ok_tick 0; ok_tick 30000000] =
  ([Ws_accept;
    Ws_send_text (JDict [("type", JStr "heartbeat");
                         ("timestamp", JStr "2024-03-02T15:00:00")]);
    Ws_sleep 30;
    Ws_send_text (JDict [("type", JStr "heartbeat");
                         ("timestamp", JStr "2024-03-02T15:00:00")]);
    Ws_sleep 30],
   Ws_open).
Proof.
  apply (stream_keeps_beating (fun _ => "2024-03-02T15:00:00")
           [ok_tick 0; ok_tick 30000000]).
  reflexivity.
Defined.

(** X16: the first send that raises ends the stream, and nothing is sent
    or slept after it: a [WebSocketDisconnect] makes the handler return
    normally, any other exception leaves the handler as it is; the
    heartbeats sent are exactly those of the passes before. *)
Theorem stream_ends_at_first_failure isoformat pre tk post e :
  forallb delivered pre = true →
  send_text tk = Some e →
  websocket_endpoint isoformat None (pre ++ tk :: post) =
    (Ws_accept :: beats isoformat pre,
     if is_WebSocketDisconnect e then Ws_closed else Ws_failed e).
Proof.
  intros Hpre He. unfold websocket_endpoint.
  rewrite (heartbeat_loop_app _ _ _ Hpre). simpl. rewrite He. simpl.
  rewrite app_nil_r. by destruct (is_WebSocketDisconnect e).
Qed.

Lemma stream_ends_at_first_failure_witness :
  websocket_endpoint (fun _ => "2024-03-02T15:00:00") None
    ([ok_tick 0]
     ++ failing_tick 30000000 (PyException "WebSocketDisconnect" "1006")
     :: [ok_tick 60000000]) =
  ([Ws_accept;
    Ws_send_text (JDict [("type", JStr "heartbeat");
                         ("timestamp", JStr "2024-03-02T15:00:00")]);
    Ws_sleep 30],
   Ws_closed).
Proof.
  apply (stream_ends_at_first_failure (fun _ => "2024-03-02T15:00:00")
           [ok_tick 0]
           (failing_tick 30000000 (PyException "WebSocketDisconnect" "1006"))
           [ok_tick 60000000] (PyException "WebSocketDisconnect" "1006"));
    reflexivity.
Defined.

(** ** The token endpoint *)

(** The token of [GET /auth/token] is issued for the user ["f1-user"] and,
    under the library's contract, verifies to it on the issuing bridge while
    the clock is before the stored expiry. *)
Lemma get_auth_token_verifies J self utcnow now token :
  jwt.contract J →
  get_auth_token J self utcnow = [("token", token)] →
  now < jwt.numeric_date (utcnow + timedelta_hours 1) * 1000000 →
  verify_jwt J self token now =
    inr (JDict [("user_id", JStr "f1-user");
                ("exp", JInt (jwt.numeric_date (utcnow + timedelta_hours 1)))]).
Proof.
  intros [Hdecode _ _] [= <-] Hnow. unfold verify_jwt, generate_jwt.
  rewrite Hdecode. simpl.
  destruct (_ <=? now) eqn:Hle; [apply Z.leb_le in Hle; lia|done].
Qed.
